(** * ObjectId: a shallow embedding of [bson/objectid.py]

    The 12-byte identifier of [bson/objectid.py] (Python 3 branch of the
    module: [PY3] is true, so [_ord] is the identity, [string_type] and
    [text_type] are [str]).  Python values are modelled by an inductive
    type, exceptions by an error monad threaded with the class attributes
    [ObjectId._inc] and [ObjectId._machine_bytes]; byte strings are lists of
    [Byte.byte], integers are [Z]. *)

From Stdlib Require Import ZArith NArith List String Ascii Bool Lia.
From Stdlib Require Import Strings.Byte.
Import ListNotations.
Local Open Scope Z_scope.

(** ** Byte strings *)

Definition bytes := list byte.

Definition byte_to_Z (b : byte) : Z := Z.of_N (Byte.to_N b).

(** The byte with value [z mod 256] (a C cast to [unsigned char]). *)
Definition byte_of_Z (z : Z) : byte :=
  match Byte.of_N (Z.to_N (z mod 256)) with
  | Some b => b
  | None => x00
  end.

(** Python's slice [b[i:j]] for [0 <= i <= j]. *)
Definition slice (i j : nat) (b : bytes) : bytes := firstn (j - i) (skipn i b).

(** Python's [<] on [bytes]: lexicographic on the unsigned byte values, a
    proper prefix being smaller. *)
Fixpoint bytes_lt (a b : bytes) : bool :=
  match a, b with
  | [], [] => false
  | [], _ :: _ => true
  | _ :: _, [] => false
  | x :: a', y :: b' =>
      if byte_to_Z x <? byte_to_Z y then true
      else if byte_to_Z y <? byte_to_Z x then false
      else bytes_lt a' b'
  end.

Definition bytes_eqb (a b : bytes) : bool :=
  if list_eq_dec Byte.byte_eq_dec a b then true else false.

Definition bytes_le (a b : bytes) : bool := bytes_lt a b || bytes_eqb a b.

(** ** Python values, exceptions and the result monad *)

Record ObjectId : Type := mkObjectId { binary : bytes }.

(** [PyOther truth] stands for an instance of any other class (a float, a
    list, a dict, ...), of which only the truth value matters here;
    [PyFaulty error] for an instance of another class whose truth test
    ([__bool__] or [__len__]) raises [error].

    [InvalidId] carries the offending value (the [%r] of its message).
    [StructError] is [struct.error]; [InvalidId] is a subclass of
    [ValueError], the others are unrelated classes. *)
Inductive pyval : Type :=
| PyNone
| PyBool (b : bool)
| PyInt (n : Z)
| PyBytes (b : bytes)
| PyStr (s : string)
| PyObjectId (o : ObjectId)
| PyOther (truth : bool)
| PyFaulty (error : exn)
with exn : Type :=
| InvalidId (oid : pyval)
| TypeError
| ValueError
| StructError
| OverflowError
| RuntimeError.

Inductive result (A : Type) : Type :=
| Ok (a : A)
| Raise (e : exn).
Arguments Ok {A} a.
Arguments Raise {A} e.

Definition bind {A B} (r : result A) (k : A -> result B) : result B :=
  match r with
  | Ok a => k a
  | Raise e => Raise e
  end.

Declare Scope py_scope.
Delimit Scope py_scope with py.
Notation "x <- r ;; k" := (bind r (fun x => k))
  (at level 61, r at next level, right associativity) : py_scope.
Local Open Scope py_scope.

Definition is_Ok {A} (r : result A) : bool :=
  match r with Ok _ => true | Raise _ => false end.

(** ** The [struct] module: the three formats the source uses *)

Module Struct.

(** [width] bytes of [x], most significant first: the loop of
    [bp_int]/[bp_uint], which stores the low byte and shifts right. *)
Fixpoint int_to_be (width : nat) (x : Z) : bytes :=
  match width with
  | O => []
  | S w => int_to_be w (Z.shiftr x 8) ++ [byte_of_Z (Z.land x 255)]
  end.

Fixpoint int_to_le (width : nat) (x : Z) : bytes :=
  match width with
  | O => []
  | S w => byte_of_Z (Z.land x 255) :: int_to_le w (Z.shiftr x 8)
  end.

(** The unsigned value of a big-endian byte string. *)
Definition be_to_uint (b : bytes) : Z :=
  fold_left (fun acc x => Z.lor (Z.shiftl acc 8) (byte_to_Z x)) b 0.

(** [struct.pack(">i", x)]: raises [struct.error] outside the signed
    32-bit range. *)
Definition pack_be_i (x : Z) : result bytes :=
  if (-2147483648 <=? x) && (x <=? 2147483647)
  then Ok (int_to_be 4 x)
  else Raise StructError.

(** [struct.pack(">H", x)]. *)
Definition pack_be_H (x : Z) : result bytes :=
  if (0 <=? x) && (x <=? 65535)
  then Ok (int_to_be 2 x)
  else Raise StructError.

(** [struct.pack("<I", x)]. *)
Definition pack_le_I (x : Z) : result bytes :=
  if (0 <=? x) && (x <=? 4294967295)
  then Ok (int_to_le 4 x)
  else Raise StructError.

(** [struct.unpack(">i", b)[0]]: needs exactly 4 bytes; the unsigned
    value is sign-extended. *)
Definition unpack_be_i (b : bytes) : result Z :=
  if (List.length b =? 4)%nat
  then let u := be_to_uint b in
       Ok (if 2147483648 <=? u then u - 4294967296 else u)
  else Raise StructError.

End Struct.

(** ** [_fnv_1a_24] *)

(** [_ord] on Python 3: iterating over [bytes] yields integers. *)
Definition _ord (x : byte) : Z := byte_to_Z x.

Definition _fnv_1a_24 (data : bytes) : Z :=
  let hash_size := 2 ^ 32 in
  let fnv_32_prime := 16777619 in
  let fnv_1a_hash :=
    fold_left (fun fnv_1a_hash elt =>
                 let fnv_1a_hash := Z.lxor fnv_1a_hash (_ord elt) in
                 (fnv_1a_hash * fnv_32_prime) mod hash_size)
              data 2166136261 in
  Z.lxor (Z.shiftr fnv_1a_hash 24) (Z.land fnv_1a_hash 0xFFFFFF).

(** [_machine_bytes()].  [hostname] is [socket.gethostname().encode()]. *)
Definition _machine_bytes (hostname : bytes) : result bytes :=
  p <- Struct.pack_le_I (_fnv_1a_24 hostname) ;;
  Ok (firstn 3 p).

(** ** [binascii.hexlify], [bytes.decode] and [bytes_from_hex] *)

(** The digit ["0123456789abcdef"[n]] as an ASCII byte. *)
Definition hex_digit (n : Z) : byte :=
  if n <? 10 then byte_of_Z (48 + n) else byte_of_Z (87 + n).

Definition hexlify (data : bytes) : bytes :=
  flat_map (fun b => [hex_digit (Z.shiftr (byte_to_Z b) 4);
                      hex_digit (Z.land (byte_to_Z b) 15)]) data.

(** [bytes.decode()] on ASCII input, the only input [__str__] gives it:
    every byte becomes the character of the same code. *)
Definition decode (b : bytes) : string := string_of_list_byte b.

Definition hex_digit_value (c : ascii) : option Z :=
  let n := Z.of_N (N_of_ascii c) in
  if (48 <=? n) && (n <=? 57) then Some (n - 48)
  else if (97 <=? n) && (n <=? 102) then Some (n - 87)
  else if (65 <=? n) && (n <=? 70) then Some (n - 55)
  else None.

(** Modelled from the spec: [bytes_from_hex] of [bson.py3compat], which is
    not among the sources.  The spec's text form is an exact
    two-hex-digits-per-byte mapping, case-insensitive on input, and content
    that is not valid hexadecimal is an error (a [ValueError], one of the two
    kinds its caller catches). *)
Fixpoint bytes_from_hex (h : string) : result bytes :=
  match h with
  | EmptyString => Ok []
  | String _ EmptyString => Raise ValueError
  | String c1 (String c2 rest) =>
      match hex_digit_value c1, hex_digit_value c2 with
      | Some hi, Some lo =>
          tl <- bytes_from_hex rest ;;
          Ok (byte_of_Z (16 * hi + lo) :: tl)
      | _, _ => Raise ValueError
      end
  end.

(** ** [datetime], as far as the source uses it *)

Module Datetime.

(** A [timedelta] is its total number of microseconds. *)
Definition timedelta := Z.

(** A [datetime] is the reading of its calendar fields, counted in
    microseconds from 1970-01-01T00:00:00, and the offset its [tzinfo]
    gives for it ([None] for a naive value). *)
Record datetime : Type := mkDatetime { wall : Z; tzinfo : option timedelta }.

(** [datetime.min] and [datetime.max] (years 1 to 9999). *)
Definition min_wall : Z := -62135596800000000.
Definition max_wall : Z := 253402300799999999.

Definition utcoffset (t : datetime) : option timedelta := tzinfo t.

(** [t - delta]: same [tzinfo]; [OverflowError] outside the years
    1..9999. *)
Definition sub (t : datetime) (delta : timedelta) : result datetime :=
  let w := wall t - delta in
  if (min_wall <=? w) && (w <=? max_wall)
  then Ok (mkDatetime w (tzinfo t))
  else Raise OverflowError.

(** [t.timetuple()] drops the microseconds: the tuple is represented by
    the whole seconds of the reading. *)
Definition timetuple (t : datetime) : Z := wall t / 1000000.

(** [calendar.timegm]: the seconds from the epoch of a time tuple. *)
Definition timegm (tt : Z) : Z := tt.

(** Modelled from the spec: [utc] of [bson.tz_util], which is not among
    the sources; a [tzinfo] of offset zero. *)
Definition utc : timedelta := 0.

(** [datetime.datetime.fromtimestamp(timestamp, tz)] for an integer
    [timestamp]. *)
Definition fromtimestamp (timestamp : Z) (tz : timedelta) : datetime :=
  mkDatetime (timestamp * 1000000 + tz) (Some tz).

(** The instant of [t] in microseconds from the epoch, a naive value
    being read as UTC. *)
Definition utc_instant (t : datetime) : Z :=
  match tzinfo t with
  | Some off => wall t - off
  | None => wall t
  end.

(** The Unix seconds of [t]. *)
Definition unix_seconds (t : datetime) : Z := utc_instant t / 1000000.

End Datetime.

(** ** The class [ObjectId] *)

(** The class attributes [ObjectId._inc] and [ObjectId._machine_bytes]. *)
Record ObjectId_cls : Type := mkCls {
  ObjectId_inc : Z;
  ObjectId_machine_bytes : bytes
}.

(** What a call reads from its environment: [int(time.time())] and
    [os.getpid()]. *)
Record environ : Type := mkEnviron { time_time : Z; os_getpid : Z }.

(** The class body: [randint] is the draw of [random.randint(0, 0xFFFFFF)]. *)
Definition class_body (hostname : bytes) (randint : Z) : result ObjectId_cls :=
  mb <- _machine_bytes hostname ;;
  Ok (mkCls randint mb).

Definition _raise_invalid_id {A} (oid : pyval) : result A :=
  Raise (InvalidId oid).

Definition is_InvalidId (e : exn) : bool :=
  match e with InvalidId _ => true | _ => false end.

Definition is_TypeError (e : exn) : bool :=
  match e with TypeError => true | _ => false end.

(** [InvalidId] derives from [ValueError]. *)
Definition is_ValueError (e : exn) : bool :=
  match e with ValueError | InvalidId _ => true | _ => false end.

Definition __generate (env : environ) (st : ObjectId_cls)
  : result (ObjectId * ObjectId_cls) :=
  oid <- Struct.pack_be_i (time_time env) ;;
  let oid := oid ++ ObjectId_machine_bytes st in
  p <- Struct.pack_be_H (os_getpid env mod 0xFFFF) ;;
  let oid := oid ++ p in
  i <- Struct.pack_be_i (ObjectId_inc st) ;;
  let oid := oid ++ slice 1 4 i in
  let st' := mkCls ((ObjectId_inc st + 1) mod 0xFFFFFF)
                   (ObjectId_machine_bytes st) in
  Ok (mkObjectId oid, st').

(** [bytes_from_hex] is not among the sources, so [__validate], and with it
    [__init__] and [is_valid], are written over any decoder [from_hex]
    first; the module's own are these at the decoder modelled from the
    spec. *)
Definition __validate_with (from_hex : string -> result bytes) (oid : pyval)
  : result ObjectId :=
  match oid with
  | PyObjectId o => Ok (mkObjectId (binary o))
  | PyStr s =>
      if (String.length s =? 24)%nat then
        match from_hex s with
        | Ok b => Ok (mkObjectId b)
        | Raise e =>
            if is_TypeError e || is_ValueError e
            then _raise_invalid_id oid
            else Raise e
        end
      else _raise_invalid_id oid
  | _ => Raise TypeError
  end.

Definition __validate (oid : pyval) : result ObjectId :=
  __validate_with bytes_from_hex oid.

Definition __init___with (from_hex : string -> result bytes)
    (env : environ) (oid : pyval) (st : ObjectId_cls)
  : result (ObjectId * ObjectId_cls) :=
  match oid with
  | PyNone => __generate env st
  | PyBytes b =>
      if (List.length b =? 12)%nat then Ok (mkObjectId b, st)
      else self <- __validate_with from_hex oid ;; Ok (self, st)
  | _ => self <- __validate_with from_hex oid ;; Ok (self, st)
  end.

Definition __init__ (env : environ) (oid : pyval) (st : ObjectId_cls)
  : result (ObjectId * ObjectId_cls) :=
  __init___with bytes_from_hex env oid st.

Definition from_datetime (env : environ) (generation_time : Datetime.datetime)
                         (st : ObjectId_cls)
  : result (ObjectId * ObjectId_cls) :=
  generation_time <-
    match Datetime.utcoffset generation_time with
    | Some off => Datetime.sub generation_time off
    | None => Ok generation_time
    end ;;
  let timestamp := Datetime.timegm (Datetime.timetuple generation_time) in
  p <- Struct.pack_be_i timestamp ;;
  let oid := p ++ repeat x00 8 in
  __init__ env (PyBytes oid) st.

(** Python's truth test, the [not oid] of [is_valid]: a truth value, or
    the exception the object's own test raises. *)
Definition truthy (v : pyval) : result bool :=
  match v with
  | PyNone => Ok false
  | PyBool b => Ok b
  | PyInt n => Ok (negb (n =? 0))
  | PyBytes b => Ok (negb (List.length b =? 0)%nat)
  | PyStr s => Ok (negb (String.length s =? 0)%nat)
  | PyObjectId _ => Ok true
  | PyOther truth => Ok truth
  | PyFaulty error => Raise error
  end.

(** The [try]/[except (InvalidId, TypeError)] of [is_valid] around a
    construction. *)
Definition is_valid_try {A} (st : ObjectId_cls) (r : result (A * ObjectId_cls))
  : result (bool * ObjectId_cls) :=
  match r with
  | Ok (_, st') => Ok (true, st')
  | Raise e =>
      if is_InvalidId e || is_TypeError e then Ok (false, st) else Raise e
  end.

Definition is_valid_with (from_hex : string -> result bytes)
    (env : environ) (oid : pyval) (st : ObjectId_cls)
  : result (bool * ObjectId_cls) :=
  truth <- truthy oid ;;
  if negb truth then Ok (false, st)
  else is_valid_try st (__init___with from_hex env oid st).

Definition is_valid (env : environ) (oid : pyval) (st : ObjectId_cls)
  : result (bool * ObjectId_cls) :=
  is_valid_with bytes_from_hex env oid st.

Definition generation_time (self : ObjectId) : result Datetime.datetime :=
  timestamp <- Struct.unpack_be_i (slice 0 4 (binary self)) ;;
  Ok (Datetime.fromtimestamp timestamp Datetime.utc).

Definition __str__ (self : ObjectId) : string := decode (hexlify (binary self)).

(** The value of a rich comparison method. *)
Inductive cmp_result : Type :=
| CmpBool (b : bool)
| NotImplemented.

Definition __eq__ (self : ObjectId) (other : pyval) : cmp_result :=
  match other with
  | PyObjectId o => CmpBool (bytes_eqb (binary self) (binary o))
  | _ => NotImplemented
  end.

Definition __ne__ (self : ObjectId) (other : pyval) : cmp_result :=
  match other with
  | PyObjectId o => CmpBool (negb (bytes_eqb (binary self) (binary o)))
  | _ => NotImplemented
  end.

Definition __lt__ (self : ObjectId) (other : pyval) : cmp_result :=
  match other with
  | PyObjectId o => CmpBool (bytes_lt (binary self) (binary o))
  | _ => NotImplemented
  end.

Definition __le__ (self : ObjectId) (other : pyval) : cmp_result :=
  match other with
  | PyObjectId o => CmpBool (bytes_le (binary self) (binary o))
  | _ => NotImplemented
  end.

Definition __gt__ (self : ObjectId) (other : pyval) : cmp_result :=
  match other with
  | PyObjectId o => CmpBool (bytes_lt (binary o) (binary self))
  | _ => NotImplemented
  end.

Definition __ge__ (self : ObjectId) (other : pyval) : cmp_result :=
  match other with
  | PyObjectId o => CmpBool (bytes_le (binary o) (binary self))
  | _ => NotImplemented
  end.

(** ** Reachable class states and constructed identifiers *)

(** The class attributes after the class body and any number of successful
    constructor calls (the only code that assigns [ObjectId._inc]). *)
Inductive reachable : ObjectId_cls -> Prop :=
| reach_body hostname randint st :
    0 <= randint <= 0xFFFFFF ->
    class_body hostname randint = Ok st ->
    reachable st
| reach_init env oid st x st' :
    reachable st ->
    __init__ env oid st = Ok (x, st') ->
    reachable st'.

(** The identifiers the constructor and [from_datetime] give: fresh
    generation, 12 raw bytes, a 24-character hex string, the copy of an
    identifier itself so obtained, and the query-only constructor. *)
Inductive constructed : ObjectId -> Prop :=
| by_init env oid st x st' :
    reachable st ->
    (forall o, oid = PyObjectId o -> constructed o) ->
    __init__ env oid st = Ok (x, st') ->
    constructed x
| by_from_datetime env t st x st' :
    reachable st ->
    from_datetime env t st = Ok (x, st') ->
    constructed x.

(** ** The specification's wording, to compare the code with *)

(** 32-bit FNV-1a from the running value [h]: for each byte, XOR it in,
    then multiply by the prime modulo 2^32. *)
Fixpoint fnv_1a_32_spec (h : Z) (data : bytes) : Z :=
  match data with
  | [] => h
  | b :: rest => fnv_1a_32_spec ((Z.lxor h (byte_to_Z b) * 16777619) mod 2 ^ 32) rest
  end.

(** XOR of the top 8 bits into the low 24 bits of a 32-bit value. *)
Definition xor_fold_24_spec (h : Z) : Z := Z.lxor (h / 2 ^ 24) (h mod 2 ^ 24).

Definition fnv_1a_24_spec (data : bytes) : Z :=
  xor_fold_24_spec (fnv_1a_32_spec 2166136261 data).

(** The big-endian two's-complement 32-bit encoding of [s]. *)
Definition be_i32_spec (s : Z) : bytes :=
  map byte_of_Z [s / 2 ^ 24; s / 2 ^ 16; s / 2 ^ 8; s].

(** The big-endian unsigned encoding of [n] on 16 and on 24 bits. *)
Definition be_u16_spec (n : Z) : bytes := map byte_of_Z [n / 2 ^ 8; n].
Definition be_u24_spec (n : Z) : bytes := map byte_of_Z [n / 2 ^ 16; n / 2 ^ 8; n].

(** Whether subtracting its offset takes an aware timestamp out of the
    years 1 to 9999. *)
Definition offset_overflows (t : Datetime.datetime) : bool :=
  match Datetime.tzinfo t with
  | Some off =>
      negb ((Datetime.min_wall <=? Datetime.wall t - off)
            && (Datetime.wall t - off <=? Datetime.max_wall))
  | None => false
  end.

(** A timestamp cut to whole seconds, as a UTC-aware value. *)
Definition truncated_utc (t : Datetime.datetime) : Datetime.datetime :=
  Datetime.mkDatetime (Datetime.unix_seconds t * 1000000) (Some 0).

(** The value of a big-endian byte string, by positional weight. *)
Fixpoint be_val (b : bytes) : Z :=
  match b with
  | [] => 0
  | x :: rest => byte_to_Z x * 256 ^ Z.of_nat (List.length rest) + be_val rest
  end.

(** What holds of the class attributes in every reachable state. *)
Definition cls_ok (st : ObjectId_cls) : Prop :=
  0 <= ObjectId_inc st <= 0xFFFFFF
  /\ List.length (ObjectId_machine_bytes st) = 3%nat.

(** The hex rendering by table lookup: each byte gives the digits of its
    high and of its low half in ["0123456789abcdef"]. *)
Definition hex_char_spec (n : Z) : ascii :=
  match String.get (Z.to_nat n) "0123456789abcdef" with
  | Some c => c
  | None => "0"%char
  end.

Fixpoint hex_rendering_spec (b : bytes) : string :=
  match b with
  | [] => EmptyString
  | x :: rest =>
      String (hex_char_spec (byte_to_Z x / 16))
             (String (hex_char_spec (byte_to_Z x mod 16)) (hex_rendering_spec rest))
  end.

(** [isinstance(other, ObjectId)]. *)
Definition isinstance_ObjectId (other : pyval) : bool :=
  match other with PyObjectId _ => true | _ => false end.

(** ** Sample inputs *)

(** The host name [b"host"], a call at 2023-11-14T22:13:20Z in process 4242,
    and the class attributes after the class body drew 0. *)
Definition hostname0 : bytes := [x68; x6f; x73; x74].
Definition env0 : environ := mkEnviron 1700000000 4242.
Definition cls0 : ObjectId_cls := mkCls 0 [xc0; xa5; xfe].

(** The identifier of the source's docstring, [ObjectId(b'foo-bar-quux')]. *)
Definition foo_bar_quux : ObjectId :=
  mkObjectId [x66; x6f; x6f; x2d; x62; x61; x72; x2d; x71; x75; x75; x78].

(** Naive timestamps: 1969-12-31T23:59:59, the epoch, the epoch plus 0.1 s
    and 0.5 s, 2001-09-09T01:46:40.25 and 2038-01-19T03:14:08; and
    2001-09-09T03:46:40.25+02:00. *)
Definition t_1969 : Datetime.datetime := Datetime.mkDatetime (-1000000) None.
Definition t_epoch : Datetime.datetime := Datetime.mkDatetime 0 None.
Definition t_epoch_100ms : Datetime.datetime := Datetime.mkDatetime 100000 None.
Definition t_epoch_500ms : Datetime.datetime := Datetime.mkDatetime 500000 None.
Definition t_2001 : Datetime.datetime := Datetime.mkDatetime 1000000000250000 None.
Definition t_2038 : Datetime.datetime := Datetime.mkDatetime 2147483648000000 None.
Definition t_2001_cest : Datetime.datetime :=
  Datetime.mkDatetime 1000007200250000 (Some 7200000000).

(** 0001-01-01T00:00:00+01:00, an hour before the first instant [datetime]
    can hold once its offset is subtracted. *)
Definition t_min_cet : Datetime.datetime :=
  Datetime.mkDatetime Datetime.min_wall (Some 3600000000).

(** A 3-byte value, as [__setstate__] restores it from a pickle of
    [b"abc"]. *)
Definition abc : ObjectId := mkObjectId [x61; x62; x63].

(** ** The rest of the class: validator, pickling, [repr], [hash] *)

(** [ObjectId.validate], the pydantic validator: no parsing, the value
    itself when it is an instance, a plain [ValueError] otherwise. *)
Definition validate (oid : pyval) : result pyval :=
  if negb (isinstance_ObjectId oid) then Raise ValueError else Ok oid.

(** [__get_validators__]: the generator yields [cls.validate] and stops. *)
Definition __get_validators__ : list (pyval -> result pyval) := [validate].

Definition __getstate__ (self : ObjectId) : bytes := binary self.

(** What [__setstate__] is given: the raw bytes, the Python 2 [str] of an
    old pickle, or the [__dict__] of a pickle made by pymongo 1.9 or older,
    which binds names to such values. *)
Inductive state_leaf : Type :=
| StBytes (b : bytes)
| StStr (s : string).

Inductive state_value : Type :=
| StLeaf (v : state_leaf)
| StDict (d : list (string * state_leaf)).

(** [d[key]]: the binding of [key], if any. *)
Fixpoint dict_get (d : list (string * state_leaf)) (key : string)
  : option state_leaf :=
  match d with
  | [] => None
  | (k, v) :: rest => if String.eqb k key then Some v else dict_get rest key
  end.

(** [__setstate__] restores the object or raises [KeyError(key)]. *)
Inductive setstate_result : Type :=
| Restored (self : ObjectId)
| KeyError (key : string).

(** [s.encode("latin-1")]: every character of the string model has a code
    below 256 and becomes the byte of that code. *)
Definition encode_latin_1 (s : string) : bytes := list_byte_of_string s.

Definition __setstate__ (value : state_value) : setstate_result :=
  let lookup :=
    match value with
    | StDict d => dict_get d "_ObjectId__id"
    | StLeaf v => Some v
    end in
  match lookup with
  | None => KeyError "_ObjectId__id"
  | Some (StStr oid) => Restored (mkObjectId (encode_latin_1 oid))
  | Some (StBytes oid) => Restored (mkObjectId oid)
  end.

Definition __repr__ (self : ObjectId) : string :=
  ("ObjectId('" ++ __str__ self ++ "')")%string.

(** [__hash__]: [hash] is the interpreter's hash of a [bytes] value. *)
Definition __hash__ (hash : bytes -> Z) (self : ObjectId) : Z :=
  hash (binary self).

(** Successive [ObjectId()] calls, one per environment reading, threading
    the class attributes. *)
Fixpoint generate_all (envs : list environ) (st : ObjectId_cls)
  : result (list ObjectId * ObjectId_cls) :=
  match envs with
  | [] => Ok ([], st)
  | env :: rest =>
      r <- __init__ env PyNone st ;;
      r' <- generate_all rest (snd r) ;;
      Ok (fst r :: fst r', snd r')
  end.

(** The value of a little-endian byte string. *)
Fixpoint le_val (b : bytes) : Z :=
  match b with
  | [] => 0
  | x :: rest => byte_to_Z x + 256 * le_val rest
  end.

(** The counter [k] generations after it held [c]. *)
Definition counter_after (c : Z) (k : nat) : Z :=
  match k with
  | O => c
  | S _ => (c + Z.of_nat k) mod 16777215
  end.

(** The counter field of an identifier, bytes [9:12]. *)
Definition counter_field (x : ObjectId) : bytes := slice 9 12 (binary x).

(** ** Bytes and integers *)

Lemma byte_to_Z_range (b : byte) : 0 <= byte_to_Z b < 256.
Proof.
  unfold byte_to_Z. pose proof (Byte.to_N_bounded b). lia.
Qed.

Lemma byte_to_of_Z (z : Z) : byte_to_Z (byte_of_Z z) = z mod 256.
Proof.
  unfold byte_to_Z, byte_of_Z.
  pose proof (Z.mod_pos_bound z 256 ltac:(lia)) as Hm.
  destruct (Byte.of_N (Z.to_N (z mod 256))) as [b|] eqn:E.
  - apply Byte.to_of_N in E. rewrite E. lia.
  - pose proof (Byte.to_of_N_option_map (Z.to_N (z mod 256))) as H.
    rewrite E in H. simpl in H.
    destruct (N.leb_spec (Z.to_N (z mod 256)) 255); [discriminate | lia].
Qed.

Lemma byte_of_to_Z (b : byte) : byte_of_Z (byte_to_Z b) = b.
Proof.
  unfold byte_of_Z, byte_to_Z.
  pose proof (Byte.to_N_bounded b).
  rewrite Z.mod_small by lia.
  rewrite N2Z.id, Byte.of_to_N. reflexivity.
Qed.

Lemma byte_of_Z_mod (z : Z) : byte_of_Z (z mod 256) = byte_of_Z z.
Proof.
  unfold byte_of_Z. rewrite Z.mod_mod by lia. reflexivity.
Qed.

Lemma land_255 (x : Z) : Z.land x 255 = x mod 256.
Proof. change 255 with (Z.ones 8). rewrite Z.land_ones by lia. reflexivity. Qed.

Lemma shiftr_8 (x : Z) : Z.shiftr x 8 = x / 256.
Proof. rewrite Z.shiftr_div_pow2 by lia. reflexivity. Qed.

(** ** The hash *)

Lemma fnv_fold_spec (data : bytes) (h : Z) :
  fold_left (fun fnv_1a_hash elt =>
               let fnv_1a_hash := Z.lxor fnv_1a_hash (_ord elt) in
               (fnv_1a_hash * 16777619) mod 2 ^ 32) data h
  = fnv_1a_32_spec h data.
Proof.
  revert h. induction data as [|b rest IH]; intros h; simpl.
  - reflexivity.
  - rewrite IH. reflexivity.
Qed.

Lemma fnv_1a_32_spec_range (data : bytes) (h : Z) :
  0 <= h < 2 ^ 32 -> 0 <= fnv_1a_32_spec h data < 2 ^ 32.
Proof.
  revert h. induction data as [|b rest IH]; intros h Hh; simpl.
  - exact Hh.
  - apply IH. apply Z.mod_pos_bound. lia.
Qed.

Lemma xor_fold_shift (h : Z) :
  Z.lxor (Z.shiftr h 24) (Z.land h 0xFFFFFF) = xor_fold_24_spec h.
Proof.
  unfold xor_fold_24_spec.
  rewrite Z.shiftr_div_pow2 by lia.
  change 0xFFFFFF with (Z.ones 24). rewrite Z.land_ones by lia.
  reflexivity.
Qed.

Lemma xor_fold_24_range (h : Z) :
  0 <= h < 2 ^ 32 -> 0 <= xor_fold_24_spec h < 2 ^ 24.
Proof.
  intros Hh. unfold xor_fold_24_spec.
  assert (H1 : 0 <= h / 2 ^ 24 < 2 ^ 24).
  { split; [apply Z.div_pos; lia |].
    apply Z.div_lt_upper_bound; lia. }
  assert (H2 : 0 <= h mod 2 ^ 24 < 2 ^ 24) by (apply Z.mod_pos_bound; lia).
  split.
  - apply Z.lxor_nonneg. lia.
  - destruct (Z.eq_dec (Z.lxor (h / 2 ^ 24) (h mod 2 ^ 24)) 0) as [E|E];
      [rewrite E; lia |].
    apply Z.log2_lt_pow2.
    + assert (0 <= Z.lxor (h / 2 ^ 24) (h mod 2 ^ 24)) by (apply Z.lxor_nonneg; lia).
      lia.
    + eapply Z.le_lt_trans; [apply Z.log2_lxor; lia |].
      apply Z.max_lub_lt.
      * destruct (Z.eq_dec (h / 2 ^ 24) 0) as [E0|E0];
          [rewrite E0; simpl; lia | apply Z.log2_lt_pow2; lia].
      * destruct (Z.eq_dec (h mod 2 ^ 24) 0) as [E0|E0];
          [rewrite E0; simpl; lia | apply Z.log2_lt_pow2; lia].
Qed.

Lemma fnv_1a_24_range (data : bytes) : 0 <= _fnv_1a_24 data < 2 ^ 24.
Proof.
  unfold _fnv_1a_24. cbv zeta.
  rewrite fnv_fold_spec, xor_fold_shift.
  apply xor_fold_24_range, fnv_1a_32_spec_range. lia.
Qed.

Example fnv_1a_24_of_a : _fnv_1a_24 [x61] = 0x0C29C8.
Proof. reflexivity. Qed.

(** ** [struct]: lengths, positional value, order *)

Lemma int_to_be_length (w : nat) (x : Z) : List.length (Struct.int_to_be w x) = w.
Proof.
  revert x. induction w as [|w IH]; intros x; simpl.
  - reflexivity.
  - rewrite length_app, IH. simpl. lia.
Qed.

Lemma int_to_le_length (w : nat) (x : Z) : List.length (Struct.int_to_le w x) = w.
Proof.
  revert x. induction w as [|w IH]; intros x; simpl.
  - reflexivity.
  - rewrite IH. reflexivity.
Qed.

Lemma int_to_be_4 (x : Z) : Struct.int_to_be 4 x = be_i32_spec x.
Proof.
  unfold be_i32_spec. cbn [Struct.int_to_be app map].
  rewrite !land_255, !shiftr_8, !byte_of_Z_mod.
  rewrite !Z.div_div by lia. reflexivity.
Qed.

Lemma int_to_be_2 (x : Z) : Struct.int_to_be 2 x = be_u16_spec x.
Proof.
  unfold be_u16_spec. simpl.
  rewrite !land_255, !shiftr_8, !byte_of_Z_mod. reflexivity.
Qed.

Lemma slice_1_4_int_to_be (x : Z) : slice 1 4 (Struct.int_to_be 4 x) = be_u24_spec x.
Proof.
  rewrite int_to_be_4. reflexivity.
Qed.

Lemma be_val_range (b : bytes) : 0 <= be_val b < 256 ^ Z.of_nat (List.length b).
Proof.
  induction b as [|x rest IH].
  - simpl. lia.
  - cbn [be_val List.length]. rewrite Nat2Z.inj_succ, Z.pow_succ_r by lia.
    pose proof (byte_to_Z_range x). nia.
Qed.

Lemma be_val_app (a b : bytes) :
  be_val (a ++ b) = be_val a * 256 ^ Z.of_nat (List.length b) + be_val b.
Proof.
  induction a as [|x rest IH].
  - simpl. lia.
  - cbn [be_val app]. rewrite IH, length_app, Nat2Z.inj_add, Z.pow_add_r by lia.
    ring.
Qed.

Lemma be_to_uint_fold (b : bytes) (acc : Z) :
  0 <= acc ->
  fold_left (fun acc x => Z.lor (Z.shiftl acc 8) (byte_to_Z x)) b acc
  = acc * 256 ^ Z.of_nat (List.length b) + be_val b.
Proof.
  revert acc. induction b as [|x rest IH]; intros acc Hacc.
  - simpl. lia.
  - pose proof (byte_to_Z_range x) as Hx.
    assert (Hland : Z.land (Z.shiftl acc 8) (byte_to_Z x) = 0).
    { apply Z.bits_inj'. intros n Hn.
      rewrite Z.land_spec, Z.bits_0.
      destruct (Z.ltb_spec n 8) as [Hlt|Hge].
      - rewrite Z.shiftl_spec_low by lia. reflexivity.
      - rewrite (Z.bits_above_log2 (byte_to_Z x) n), andb_false_r.
        + reflexivity.
        + lia.
        + destruct (Z.eq_dec (byte_to_Z x) 0) as [E0|E0].
          * rewrite E0. simpl. lia.
          * apply Z.lt_le_trans with 8; [| lia].
            apply Z.log2_lt_pow2; simpl; lia. }
    assert (E : Z.lor (Z.shiftl acc 8) (byte_to_Z x) = acc * 256 + byte_to_Z x).
    { rewrite <- Z.lxor_lor, <- Z.add_nocarry_lxor by exact Hland.
      rewrite Z.shiftl_mul_pow2 by lia. reflexivity. }
    cbn [fold_left]. rewrite E, IH by lia.
    cbn [be_val List.length]. rewrite Nat2Z.inj_succ, Z.pow_succ_r by lia.
    ring.
Qed.

Lemma be_to_uint_val (b : bytes) : Struct.be_to_uint b = be_val b.
Proof.
  unfold Struct.be_to_uint. rewrite be_to_uint_fold by lia. lia.
Qed.

Lemma be_val_int_to_be (w : nat) (x : Z) :
  be_val (Struct.int_to_be w x) = x mod 256 ^ Z.of_nat w.
Proof.
  revert x. induction w as [|w IH]; intros x.
  - simpl. rewrite Z.mod_1_r. reflexivity.
  - cbn [Struct.int_to_be]. rewrite be_val_app, IH.
    cbn [be_val List.length]. rewrite byte_to_of_Z, land_255, shiftr_8.
    rewrite Z.mod_mod by lia.
    change (256 ^ Z.of_nat 0) with 1. change (256 ^ Z.of_nat 1) with 256.
    rewrite (Nat2Z.inj_succ w), Z.pow_succ_r by lia.
    rewrite (Z.rem_mul_r x 256 (256 ^ Z.of_nat w)) by lia.
    ring.
Qed.

(** Byte strings of one length, followed by a common suffix, compare as
    their big-endian values. *)
Lemma bytes_lt_refl_false (z : bytes) : bytes_lt z z = false.
Proof.
  induction z as [|x z IH]; simpl.
  - reflexivity.
  - rewrite Z.ltb_irrefl. exact IH.
Qed.

Lemma bytes_lt_be_val (a b z : bytes) :
  List.length a = List.length b ->
  bytes_lt (a ++ z) (b ++ z) = (be_val a <? be_val b).
Proof.
  revert b. induction a as [|x a IH]; intros [|y b] Hlen; simpl in Hlen;
    try discriminate.
  - simpl. apply bytes_lt_refl_false.
  - injection Hlen as Hlen. cbn [app bytes_lt be_val].
    rewrite <- Hlen.
    pose proof (be_val_range a) as Ha. pose proof (be_val_range b) as Hb.
    rewrite <- Hlen in Hb.
    assert (Hp : 0 < 256 ^ Z.of_nat (List.length a)) by (apply Z.pow_pos_nonneg; lia).
    destruct (Z.ltb_spec (byte_to_Z x) (byte_to_Z y)) as [H1|H1].
    + symmetry. apply Z.ltb_lt. nia.
    + destruct (Z.ltb_spec (byte_to_Z y) (byte_to_Z x)) as [H2|H2].
      * symmetry. apply Z.ltb_ge. nia.
      * assert (E : byte_to_Z x = byte_to_Z y) by lia.
        rewrite IH by exact Hlen. rewrite E.
        destruct (Z.ltb_spec (be_val a) (be_val b));
          symmetry; [apply Z.ltb_lt | apply Z.ltb_ge]; lia.
Qed.

Lemma pack_be_i_ok (x : Z) :
  -2147483648 <= x <= 2147483647 ->
  Struct.pack_be_i x = Ok (Struct.int_to_be 4 x).
Proof.
  intros H. unfold Struct.pack_be_i.
  destruct (Z.leb_spec (-2147483648) x); [| lia].
  destruct (Z.leb_spec x 2147483647); [| lia].
  reflexivity.
Qed.

Lemma pack_be_i_raise (x : Z) :
  ~ (-2147483648 <= x <= 2147483647) ->
  Struct.pack_be_i x = Raise StructError.
Proof.
  intros H. unfold Struct.pack_be_i.
  destruct (Z.leb_spec (-2147483648) x); [| reflexivity].
  destruct (Z.leb_spec x 2147483647); [lia | reflexivity].
Qed.

Lemma pack_be_H_ok (x : Z) :
  0 <= x <= 65535 -> Struct.pack_be_H x = Ok (Struct.int_to_be 2 x).
Proof.
  intros H. unfold Struct.pack_be_H.
  destruct (Z.leb_spec 0 x); [| lia].
  destruct (Z.leb_spec x 65535); [| lia].
  reflexivity.
Qed.

Lemma unpack_pack_be_i (x : Z) :
  -2147483648 <= x <= 2147483647 ->
  Struct.unpack_be_i (Struct.int_to_be 4 x) = Ok x.
Proof.
  intros H. unfold Struct.unpack_be_i.
  rewrite int_to_be_length. cbn [Nat.eqb]. cbv zeta.
  rewrite be_to_uint_val, be_val_int_to_be.
  change (256 ^ Z.of_nat 4) with 4294967296.
  f_equal.
  destruct (Z.leb_spec 2147483648 (x mod 4294967296)) as [Hc|Hc].
  - destruct (Z.lt_ge_cases x 0) as [Hn|Hn].
    + rewrite <- (Z.mod_unique x 4294967296 (-1) (x + 4294967296)); lia.
    + rewrite Z.mod_small in Hc by lia. lia.
  - destruct (Z.lt_ge_cases x 0) as [Hn|Hn].
    + rewrite <- (Z.mod_unique x 4294967296 (-1) (x + 4294967296)) in Hc; lia.
    + apply Z.mod_small. lia.
Qed.

(** ** Generation and the class attributes *)

Lemma generate_inv env st x st' :
  __generate env st = Ok (x, st') ->
  binary x = be_i32_spec (time_time env) ++ ObjectId_machine_bytes st
             ++ be_u16_spec (os_getpid env mod 65535)
             ++ be_u24_spec (ObjectId_inc st)
  /\ st' = mkCls ((ObjectId_inc st + 1) mod 16777215) (ObjectId_machine_bytes st).
Proof.
  unfold __generate, Struct.pack_be_i, Struct.pack_be_H.
  destruct (_ && _); [| discriminate]. cbn [bind].
  destruct (_ && _); [| discriminate]. cbn [bind].
  destruct (_ && _); [| discriminate]. cbn [bind].
  intros H.
  assert (H1 := f_equal (fun r => match r with
                                  | Ok p => binary (fst p)
                                  | Raise _ => []
                                  end) H).
  assert (H2 := f_equal (fun r => match r with
                                  | Ok p => snd p
                                  | Raise _ => st
                                  end) H).
  cbn [fst snd binary] in H1, H2.
  split; [| symmetry; exact H2].
  rewrite <- H1, <- slice_1_4_int_to_be, <- int_to_be_4, <- int_to_be_2.
  rewrite <- app_assoc. reflexivity.
Qed.

Lemma generate_ok env st :
  -2147483648 <= time_time env <= 2147483647 ->
  -2147483648 <= ObjectId_inc st <= 2147483647 ->
  exists x st', __generate env st = Ok (x, st').
Proof.
  intros Ht Hi. unfold __generate.
  rewrite (pack_be_i_ok _ Ht). cbn [bind].
  rewrite pack_be_H_ok by (pose proof (Z.mod_pos_bound (os_getpid env) 0xFFFF); lia).
  cbn [bind]. rewrite (pack_be_i_ok _ Hi). cbn [bind].
  eauto.
Qed.

Lemma machine_bytes_ok (hostname : bytes) :
  exists mb, _machine_bytes hostname = Ok mb /\ List.length mb = 3%nat.
Proof.
  unfold _machine_bytes, Struct.pack_le_I.
  pose proof (fnv_1a_24_range hostname) as H.
  destruct (Z.leb_spec 0 (_fnv_1a_24 hostname)); [| lia].
  destruct (Z.leb_spec (_fnv_1a_24 hostname) 4294967295); [| lia].
  cbn [andb bind]. eexists. split; [reflexivity |].
  rewrite length_firstn, int_to_le_length. reflexivity.
Qed.

Lemma class_body_ok hostname randint st :
  0 <= randint <= 0xFFFFFF ->
  class_body hostname randint = Ok st -> cls_ok st.
Proof.
  intros Hr. unfold class_body.
  destruct (machine_bytes_ok hostname) as (mb & -> & Hlen). cbn [bind].
  intros H. injection H as <-. split; assumption.
Qed.

Lemma init_preserves_cls_ok env oid st x st' :
  cls_ok st -> __init__ env oid st = Ok (x, st') -> cls_ok st'.
Proof.
  intros Hok H.
  assert (Hv : forall v, (self <- __validate v ;; Ok (self, st)) = Ok (x, st') -> st' = st).
  { intros v. destruct (__validate v); cbn [bind]; [| discriminate].
    intros E. injection E as _ <-. reflexivity. }
  destruct oid; cbn [__init__ __init___with] in H;
    try (apply Hv in H; subst st'; exact Hok).
  - apply generate_inv in H. destruct H as [_ ->].
    destruct Hok as [_ Hlen]. split; [| exact Hlen]. cbn [ObjectId_inc].
    pose proof (Z.mod_pos_bound (ObjectId_inc st + 1) 16777215). lia.
  - destruct (List.length b =? 12)%nat.
    + injection H as _ <-. exact Hok.
    + apply Hv in H. subst st'. exact Hok.
Qed.

Lemma reachable_cls_ok st : reachable st -> cls_ok st.
Proof.
  induction 1 as [hostname randint st Hr Hb | env oid st x st' _ IH Hi].
  - eapply class_body_ok; eassumption.
  - eapply init_preserves_cls_ok; eassumption.
Qed.

Lemma generate_length env st x st' :
  cls_ok st -> __generate env st = Ok (x, st') -> List.length (binary x) = 12%nat.
Proof.
  intros [_ Hlen] H. apply generate_inv in H. destruct H as [-> _].
  rewrite !length_app, Hlen. reflexivity.
Qed.

Lemma generate_fields env st x st' :
  cls_ok st -> __generate env st = Ok (x, st') ->
  slice 0 4 (binary x) = be_i32_spec (time_time env)
  /\ slice 4 7 (binary x) = ObjectId_machine_bytes st
  /\ slice 7 9 (binary x) = be_u16_spec (os_getpid env mod 65535)
  /\ slice 9 12 (binary x) = be_u24_spec (ObjectId_inc st)
  /\ ObjectId_inc st' = (ObjectId_inc st + 1) mod 16777215.
Proof.
  intros [_ Hlen] H. apply generate_inv in H. destruct H as [-> ->].
  destruct (ObjectId_machine_bytes st) as [|m0 [|m1 [|m2 [|m3 mb]]]];
    try discriminate.
  repeat split.
Qed.

(** ** Hexadecimal text *)

Lemma string_ind2 (P : string -> Prop) :
  P EmptyString ->
  (forall c, P (String c EmptyString)) ->
  (forall c1 c2 s, P s -> P (String c1 (String c2 s))) ->
  forall s, P s.
Proof.
  intros H0 H1 H2 s.
  assert (H : P s /\ forall c, P (String c s)).
  { induction s as [|a s [IHs IHc]].
    - split; [exact H0 | exact H1].
    - split; [apply IHc |]. intros c. apply H2, IHs. }
  apply H.
Qed.

Lemma bytes_from_hex_length (s : string) (b : bytes) :
  bytes_from_hex s = Ok b -> (2 * List.length b = String.length s)%nat.
Proof.
  revert b. induction s as [|c|c1 c2 s IH] using string_ind2; intros b H.
  - injection H as <-. reflexivity.
  - discriminate.
  - cbn [bytes_from_hex] in H.
    destruct (hex_digit_value c1); [| discriminate].
    destruct (hex_digit_value c2); [| discriminate].
    destruct (bytes_from_hex s) as [tl|e]; [| discriminate].
    cbn [bind] in H. injection H as <-.
    specialize (IH tl eq_refl). cbn [List.length String.length]. lia.
Qed.

Lemma bytes_from_hex_raise (s : string) (e : exn) :
  bytes_from_hex s = Raise e -> e = ValueError.
Proof.
  induction s as [|c|c1 c2 s IH] using string_ind2; intros H.
  - discriminate.
  - injection H as <-. reflexivity.
  - cbn [bytes_from_hex] in H.
    destruct (hex_digit_value c1); [| injection H as <-; reflexivity].
    destruct (hex_digit_value c2); [| injection H as <-; reflexivity].
    destruct (bytes_from_hex s) as [tl|e']; [discriminate |].
    cbn [bind] in H. injection H as <-. apply IH. reflexivity.
Qed.


Lemma hexlify_cons (x : byte) (rest : bytes) :
  decode (hexlify (x :: rest))
  = String (ascii_of_byte (hex_digit (Z.shiftr (byte_to_Z x) 4)))
           (String (ascii_of_byte (hex_digit (Z.land (byte_to_Z x) 15)))
                   (decode (hexlify rest))).
Proof. reflexivity. Qed.

Lemma hex_digits_of_byte (x : byte) :
  ascii_of_byte (hex_digit (Z.shiftr (byte_to_Z x) 4)) = hex_char_spec (byte_to_Z x / 16)
  /\ ascii_of_byte (hex_digit (Z.land (byte_to_Z x) 15)) = hex_char_spec (byte_to_Z x mod 16)
  /\ hex_digit_value (hex_char_spec (byte_to_Z x / 16)) = Some (byte_to_Z x / 16)
  /\ hex_digit_value (hex_char_spec (byte_to_Z x mod 16)) = Some (byte_to_Z x mod 16)
  /\ byte_of_Z (16 * (byte_to_Z x / 16) + byte_to_Z x mod 16) = x.
Proof.
  destruct x; vm_compute; repeat split.
Qed.

Lemma str_hex_rendering (b : bytes) : decode (hexlify b) = hex_rendering_spec b.
Proof.
  induction b as [|x rest IH].
  - reflexivity.
  - rewrite hexlify_cons, IH. cbn [hex_rendering_spec].
    destruct (hex_digits_of_byte x) as (-> & -> & _). reflexivity.
Qed.

Lemma hex_rendering_length (b : bytes) :
  String.length (hex_rendering_spec b) = (2 * List.length b)%nat.
Proof.
  induction b as [|x rest IH]; cbn [hex_rendering_spec String.length List.length].
  - reflexivity.
  - rewrite IH. lia.
Qed.

Lemma bytes_from_hex_rendering (b : bytes) :
  bytes_from_hex (hex_rendering_spec b) = Ok b.
Proof.
  induction b as [|x rest IH].
  - reflexivity.
  - cbn [hex_rendering_spec bytes_from_hex].
    destruct (hex_digits_of_byte x) as (_ & _ & -> & -> & E).
    rewrite IH. cbn [bind]. rewrite E. reflexivity.
Qed.

Lemma bytes_eqb_refl (b : bytes) : bytes_eqb b b = true.
Proof.
  unfold bytes_eqb. destruct (list_eq_dec Byte.byte_eq_dec b b); congruence.
Qed.

Lemma init_hex_rendering env st (b : bytes) :
  List.length b = 12%nat ->
  __init__ env (PyStr (decode (hexlify b))) st = Ok (mkObjectId b, st).
Proof.
  intros Hlen. cbn [__init__ __init___with __validate __validate_with].
  rewrite str_hex_rendering, hex_rendering_length, Hlen. cbn [Nat.eqb Nat.mul Nat.add].
  rewrite bytes_from_hex_rendering. reflexivity.
Qed.

(** ** The query-only constructor *)

Lemma from_datetime_ok env st (t : Datetime.datetime) :
  -2147483648 <= Datetime.unix_seconds t <= 2147483647 ->
  from_datetime env t st
  = Ok (mkObjectId (be_i32_spec (Datetime.unix_seconds t) ++ repeat x00 8), st).
Proof.
  unfold Datetime.unix_seconds, Datetime.utc_instant, from_datetime,
    Datetime.utcoffset, Datetime.sub, Datetime.timegm, Datetime.timetuple,
    Datetime.min_wall, Datetime.max_wall.
  destruct t as [w [off|]]; cbn [Datetime.wall Datetime.tzinfo]; intros H.
  - pose proof (Z.div_mod (w - off) 1000000 ltac:(lia)) as Hd.
    pose proof (Z.mod_pos_bound (w - off) 1000000 ltac:(lia)) as Hm.
    destruct (Z.leb_spec (-62135596800000000) (w - off)); [| lia].
    destruct (Z.leb_spec (w - off) 253402300799999999); [| lia].
    cbn [andb bind Datetime.wall]. rewrite (pack_be_i_ok _ H). cbn [bind __init__ __init___with].
    rewrite length_app, int_to_be_length. cbn [repeat List.length Nat.add Nat.eqb].
    rewrite int_to_be_4. reflexivity.
  - cbn [bind Datetime.wall]. rewrite (pack_be_i_ok _ H). cbn [bind __init__ __init___with].
    rewrite length_app, int_to_be_length. cbn [repeat List.length Nat.add Nat.eqb].
    rewrite int_to_be_4. reflexivity.
Qed.

Lemma from_datetime_raise env st (t : Datetime.datetime) :
  ~ (-2147483648 <= Datetime.unix_seconds t <= 2147483647) ->
  from_datetime env t st = Raise StructError
  \/ from_datetime env t st = Raise OverflowError.
Proof.
  unfold Datetime.unix_seconds, Datetime.utc_instant, from_datetime,
    Datetime.utcoffset, Datetime.sub, Datetime.timegm, Datetime.timetuple.
  destruct t as [w [off|]]; cbn [Datetime.wall Datetime.tzinfo]; intros H.
  - destruct (_ && _); cbn [bind Datetime.wall].
    + rewrite (pack_be_i_raise _ H). left. reflexivity.
    + right. reflexivity.
  - cbn [bind Datetime.wall]. rewrite (pack_be_i_raise _ H). left. reflexivity.
Qed.

Lemma from_datetime_raise_exact env st (t : Datetime.datetime) :
  ~ (-2147483648 <= Datetime.unix_seconds t <= 2147483647) ->
  from_datetime env t st
  = Raise (if offset_overflows t then OverflowError else StructError).
Proof.
  unfold Datetime.unix_seconds, Datetime.utc_instant, from_datetime,
    Datetime.utcoffset, Datetime.sub, Datetime.timegm, Datetime.timetuple,
    offset_overflows.
  destruct t as [w [off|]]; cbn [Datetime.wall Datetime.tzinfo]; intros H.
  - destruct (_ && _); cbn [bind Datetime.wall negb].
    + rewrite (pack_be_i_raise _ H). reflexivity.
    + reflexivity.
  - cbn [bind Datetime.wall]. rewrite (pack_be_i_raise _ H). reflexivity.
Qed.

Lemma offset_overflows_out_of_range (t : Datetime.datetime) :
  offset_overflows t = true ->
  ~ (-2147483648 <= Datetime.unix_seconds t <= 2147483647).
Proof.
  unfold offset_overflows, Datetime.unix_seconds, Datetime.utc_instant,
    Datetime.min_wall, Datetime.max_wall.
  destruct t as [w [off|]]; cbn [Datetime.wall Datetime.tzinfo];
    [| discriminate].
  pose proof (Z.div_mod (w - off) 1000000 ltac:(lia)) as Hd.
  pose proof (Z.mod_pos_bound (w - off) 1000000 ltac:(lia)) as Hm.
  destruct (Z.leb_spec (-62135596800000000) (w - off));
    destruct (Z.leb_spec (w - off) 253402300799999999);
    cbn [andb negb]; intros E; try discriminate E; lia.
Qed.

Lemma be_i32_spec_val (s : Z) : be_val (be_i32_spec s) = s mod 4294967296.
Proof.
  rewrite <- int_to_be_4, be_val_int_to_be. reflexivity.
Qed.

Lemma lt_from_datetime_ids (s1 s2 : Z) :
  __lt__ (mkObjectId (be_i32_spec s1 ++ repeat x00 8))
         (PyObjectId (mkObjectId (be_i32_spec s2 ++ repeat x00 8)))
  = CmpBool (s1 mod 4294967296 <? s2 mod 4294967296).
Proof.
  cbn [__lt__ binary].
  rewrite bytes_lt_be_val by reflexivity.
  rewrite !be_i32_spec_val. reflexivity.
Qed.

(** ** The constructor on a candidate that is not [None] *)

Lemma validate_raises (oid : pyval) (e : exn) :
  __validate oid = Raise e -> is_InvalidId e || is_TypeError e = true.
Proof.
  destruct oid; cbn [__validate __validate_with]; try (intros H; injection H as <-; reflexivity).
  - destruct (String.length s =? 24)%nat.
    + destruct (bytes_from_hex s) as [b|e'] eqn:E; [discriminate |].
      apply bytes_from_hex_raise in E. subst e'.
      intros H; injection H as <-; reflexivity.
    + intros H; injection H as <-; reflexivity.
  - discriminate.
Qed.

Lemma is_valid_truthy env oid st :
  truthy oid = Ok true ->
  is_valid env oid st = Ok (is_Ok (__init__ env oid st), st).
Proof.
  intros Ht. unfold is_valid, is_valid_with. rewrite Ht. cbn [bind negb].
  assert (Hv : is_valid_try st (self <- __validate oid ;; Ok (self, st))
               = Ok (is_Ok (self <- __validate oid ;; Ok (self, st)), st)).
  { destruct (__validate oid) as [self|e] eqn:E; cbn [bind is_valid_try is_Ok].
    - reflexivity.
    - rewrite (validate_raises _ _ E). reflexivity. }
  destruct oid; try exact Hv; try discriminate.
  cbn [__init__ __init___with]. destruct (List.length b =? 12)%nat; [reflexivity | exact Hv].
Qed.

Example class_body_host : class_body hostname0 0 = Ok cls0.
Proof. reflexivity. Qed.

Example str_foo_bar_quux : __str__ foo_bar_quux = "666f6f2d6261722d71757578"%string.
Proof. reflexivity. Qed.

Example init_hex_example :
  exists x, __init__ env0 (PyStr "0123456789ab0123456789ab") cls0 = Ok (x, cls0)
            /\ __str__ x = "0123456789ab0123456789ab"%string.
Proof. eexists. split; reflexivity. Qed.

Lemma reachable_cls0 : reachable cls0.
Proof.
  apply (reach_body hostname0 0); [lia | reflexivity].
Qed.

(** * The claims *)

(** C1. The claim: the process-id field, bytes [7:9], is the big-endian
    16-bit encoding of the process id modulo 65536.  The code reduces modulo
    [0xFFFF] = 65535: for the process id 65535 the field is [00 00], where
    the encoding of 65535 mod 65536 is [ff ff]. *)
Theorem C1_pid_65535_stored_as_zero :
  exists x st',
    __generate (mkEnviron 1700000000 65535) cls0 = Ok (x, st')
    /\ slice 7 9 (binary x) = [x00; x00]
    /\ be_u16_spec (65535 mod 65536) = [xff; xff].
Proof.
  eexists. eexists. split; [vm_compute; reflexivity |].
  split; reflexivity.
Qed.

(** C2. The claim: generation stores the counter [c] in bytes [9:12] and
    leaves [(c + 1) mod 2^24] in the counter.  The code reduces modulo
    [0xFFFFFF] = 2^24 - 1: from [c = 16777214] the bytes are [ff ff fe] and
    the counter afterwards is 0, where [(c + 1) mod 2^24] is 16777215. *)
Theorem C2_counter_16777214_wraps_to_zero :
  exists st x st',
    class_body hostname0 16777214 = Ok st
    /\ __generate env0 st = Ok (x, st')
    /\ slice 9 12 (binary x) = [xff; xff; xfe]
    /\ ObjectId_inc st' = 0
    /\ (16777214 + 1) mod 2 ^ 24 = 16777215.
Proof.
  eexists. eexists. eexists.
  split; [vm_compute; reflexivity |].
  split; [vm_compute; reflexivity |].
  repeat split.
Qed.

(** C3. [_fnv_1a_24] computes, for every byte sequence, the 32-bit FNV-1a
    hash (offset basis 2166136261; per byte XOR, then multiplication by
    16777619 modulo 2^32) XOR-folded to 24 bits (top 8 bits XOR low 24
    bits); the result is a 24-bit value, and on the empty sequence it is the
    fold of the untouched offset basis. *)
Theorem C3_fnv_1a_24_is_folded_fnv_1a_32 :
  (forall data : bytes,
      _fnv_1a_24 data = fnv_1a_24_spec data
      /\ 0 <= _fnv_1a_24 data < 2 ^ 24)
  /\ _fnv_1a_24 [] = Z.lxor (Z.shiftr 2166136261 24) (Z.land 2166136261 0xFFFFFF)
  /\ _fnv_1a_24 [] = 1875268.
Proof.
  split; [| split; reflexivity].
  intros data.
  assert (E : _fnv_1a_24 data = fnv_1a_24_spec data).
  { unfold _fnv_1a_24, fnv_1a_24_spec. cbv zeta.
    rewrite fnv_fold_spec. apply xor_fold_shift. }
  split; [exact E |].
  rewrite E. unfold fnv_1a_24_spec.
  apply xor_fold_24_range, fnv_1a_32_spec_range. lia.
Qed.

(** C4. Hex round trip: for every identifier [x] (12 raw bytes), the
    constructor applied to [str(x)] gives an identifier with the same raw
    bytes, equal to [x], and leaves the class attributes alone; [str(x)] has
    24 characters, two lowercase hex digits per raw byte. *)
Theorem C4_hex_round_trip (env : environ) (st : ObjectId_cls) (x : ObjectId) :
  List.length (binary x) = 12%nat ->
  exists x',
    __init__ env (PyStr (__str__ x)) st = Ok (x', st)
    /\ binary x' = binary x
    /\ __eq__ x' (PyObjectId x) = CmpBool true
    /\ String.length (__str__ x) = 24%nat
    /\ __str__ x = hex_rendering_spec (binary x).
Proof.
  intros Hlen. destruct x as [b]. cbn [binary] in *.
  exists (mkObjectId b). unfold __str__. cbn [binary].
  split; [apply init_hex_rendering; exact Hlen |].
  split; [reflexivity |].
  split; [cbn [__eq__ binary]; rewrite bytes_eqb_refl; reflexivity |].
  split; [| apply str_hex_rendering].
  rewrite str_hex_rendering, hex_rendering_length, Hlen. reflexivity.
Qed.

Lemma C4_hex_round_trip_witness :
  List.length (binary foo_bar_quux) = 12%nat
  /\ exists x',
      __init__ env0 (PyStr (__str__ foo_bar_quux)) cls0 = Ok (x', cls0)
      /\ binary x' = binary foo_bar_quux
      /\ __eq__ x' (PyObjectId foo_bar_quux) = CmpBool true
      /\ String.length (__str__ foo_bar_quux) = 24%nat
      /\ __str__ foo_bar_quux = hex_rendering_spec (binary foo_bar_quux).
Proof.
  split; [reflexivity |].
  apply (C4_hex_round_trip env0 cls0 foo_bar_quux). reflexivity.
Defined.

(** C5, as stated, fails: for the naive timestamp 2038-01-19T03:14:08, whose
    Unix seconds are 2^31, [struct.pack(">i", ...)] raises and
    [from_datetime] produces no identifier. *)
Lemma C5_from_datetime_2038_raises :
  from_datetime env0 t_2038 cls0 = Raise StructError
  /\ ~ (exists x st', from_datetime env0 t_2038 cls0 = Ok (x, st')).
Proof.
  assert (E : from_datetime env0 t_2038 cls0 = Raise StructError) by reflexivity.
  split; [exact E |].
  intros (x & st' & H). rewrite E in H. discriminate.
Qed.

Example from_datetime_min_cet_overflows :
  from_datetime env0 t_min_cet cls0 = Raise OverflowError.
Proof. reflexivity. Qed.

(** C5, amended. For every timestamp [t] whose Unix seconds fit a signed
    32-bit integer, [from_datetime] produces a 12-byte identifier whose
    first 4 bytes are the big-endian signed 32-bit encoding of the Unix
    seconds of [t] and whose other 8 bytes are zero; a naive [t] counts as
    UTC, an aware [t] has its offset subtracted.  For any other [t] it raises
    and produces nothing: [OverflowError] when subtracting the offset of an
    aware [t] leaves the years 1 to 9999, [struct.error] from the packing
    step otherwise. *)
Theorem C5_from_datetime_int32 (env : environ) (st : ObjectId_cls)
                               (t : Datetime.datetime) :
  (-2147483648 <= Datetime.unix_seconds t <= 2147483647 ->
   exists x,
     from_datetime env t st = Ok (x, st)
     /\ List.length (binary x) = 12%nat
     /\ firstn 4 (binary x) = be_i32_spec (Datetime.unix_seconds t)
     /\ Struct.unpack_be_i (firstn 4 (binary x)) = Ok (Datetime.unix_seconds t)
     /\ skipn 4 (binary x) = repeat x00 8)
  /\ (~ (-2147483648 <= Datetime.unix_seconds t <= 2147483647) ->
      from_datetime env t st
      = Raise (if offset_overflows t then OverflowError else StructError))
  /\ (offset_overflows t = true ->
      ~ (-2147483648 <= Datetime.unix_seconds t <= 2147483647))
  /\ (Datetime.tzinfo t = None ->
      Datetime.unix_seconds t = Datetime.wall t / 1000000
      /\ offset_overflows t = false)
  /\ (forall off, Datetime.tzinfo t = Some off ->
      Datetime.unix_seconds t = (Datetime.wall t - off) / 1000000).
Proof.
  split; [| split; [| split; [| split]]].
  - intros H. eexists. split; [apply from_datetime_ok; exact H |].
    cbn [binary]. split; [reflexivity |]. split; [reflexivity |].
    split; [| reflexivity].
    change (firstn 4 (be_i32_spec (Datetime.unix_seconds t) ++ repeat x00 8))
      with (be_i32_spec (Datetime.unix_seconds t)).
    rewrite <- int_to_be_4. apply unpack_pack_be_i. exact H.
  - apply from_datetime_raise_exact.
  - apply offset_overflows_out_of_range.
  - intros E. unfold offset_overflows, Datetime.unix_seconds, Datetime.utc_instant.
    rewrite E. split; reflexivity.
  - intros off E. unfold Datetime.unix_seconds, Datetime.utc_instant. rewrite E.
    reflexivity.
Qed.

Lemma C5_from_datetime_int32_witness :
  -2147483648 <= Datetime.unix_seconds t_2001_cest <= 2147483647
  /\ exists x,
      from_datetime env0 t_2001_cest cls0 = Ok (x, cls0)
      /\ List.length (binary x) = 12%nat
      /\ firstn 4 (binary x) = be_i32_spec (Datetime.unix_seconds t_2001_cest)
      /\ Struct.unpack_be_i (firstn 4 (binary x))
         = Ok (Datetime.unix_seconds t_2001_cest)
      /\ skipn 4 (binary x) = repeat x00 8.
Proof.
  assert (H : -2147483648 <= Datetime.unix_seconds t_2001_cest <= 2147483647)
    by (vm_compute; split; discriminate).
  split; [exact H |].
  exact (proj1 (C5_from_datetime_int32 env0 cls0 t_2001_cest) H).
Defined.

(** C6, as stated, fails three ways: two timestamps within one second give
    equal identifiers; a timestamp before the epoch gives an identifier
    greater than one after it (the sign bit leads the unsigned byte
    comparison); and past 2038 no identifier is produced. *)
Lemma C6_order_not_preserved :
  (Datetime.utc_instant t_epoch_100ms < Datetime.utc_instant t_epoch_500ms
   /\ exists x1 x2,
       from_datetime env0 t_epoch_100ms cls0 = Ok (x1, cls0)
       /\ from_datetime env0 t_epoch_500ms cls0 = Ok (x2, cls0)
       /\ __lt__ x1 (PyObjectId x2) = CmpBool false)
  /\ (Datetime.utc_instant t_1969 < Datetime.utc_instant t_epoch
      /\ exists x1 x2,
          from_datetime env0 t_1969 cls0 = Ok (x1, cls0)
          /\ from_datetime env0 t_epoch cls0 = Ok (x2, cls0)
          /\ __lt__ x1 (PyObjectId x2) = CmpBool false
          /\ __lt__ x2 (PyObjectId x1) = CmpBool true)
  /\ (Datetime.utc_instant t_2001 < Datetime.utc_instant t_2038
      /\ from_datetime env0 t_2038 cls0 = Raise StructError).
Proof.
  split; [| split].
  - split; [reflexivity |]. eexists. eexists.
    split; [reflexivity |]. split; reflexivity.
  - split; [reflexivity |]. eexists. eexists.
    split; [reflexivity |]. split; [reflexivity |]. split; reflexivity.
  - split; reflexivity.
Qed.

(** C6, amended. For every pair of timestamps whose Unix seconds [s1 < s2]
    (whole seconds) are both in [0, 2^31) or both in [-2^31, 0), the
    identifier [from_datetime] builds from the first is strictly less than
    the one it builds from the second, under [__lt__]. *)
Theorem C6_from_datetime_monotone (env : environ) (st : ObjectId_cls)
                                  (t1 t2 : Datetime.datetime) :
  Datetime.unix_seconds t1 < Datetime.unix_seconds t2 ->
  (0 <= Datetime.unix_seconds t1 /\ Datetime.unix_seconds t2 <= 2147483647)
  \/ (-2147483648 <= Datetime.unix_seconds t1 /\ Datetime.unix_seconds t2 < 0) ->
  exists x1 x2,
    from_datetime env t1 st = Ok (x1, st)
    /\ from_datetime env t2 st = Ok (x2, st)
    /\ __lt__ x1 (PyObjectId x2) = CmpBool true.
Proof.
  intros Hlt Hsign. eexists. eexists.
  split; [apply from_datetime_ok; lia |].
  split; [apply from_datetime_ok; lia |].
  rewrite lt_from_datetime_ids. f_equal. apply Z.ltb_lt.
  destruct Hsign as [[H1 H2] | [H1 H2]].
  - rewrite !Z.mod_small by lia. exact Hlt.
  - rewrite <- (Z.mod_unique (Datetime.unix_seconds t1) 4294967296 (-1)
                  (Datetime.unix_seconds t1 + 4294967296)) by lia.
    rewrite <- (Z.mod_unique (Datetime.unix_seconds t2) 4294967296 (-1)
                  (Datetime.unix_seconds t2 + 4294967296)) by lia.
    lia.
Qed.

Lemma C6_from_datetime_monotone_witness :
  Datetime.unix_seconds t_epoch < Datetime.unix_seconds t_2001_cest
  /\ exists x1 x2,
      from_datetime env0 t_epoch cls0 = Ok (x1, cls0)
      /\ from_datetime env0 t_2001_cest cls0 = Ok (x2, cls0)
      /\ __lt__ x1 (PyObjectId x2) = CmpBool true.
Proof.
  split; [reflexivity |].
  apply (C6_from_datetime_monotone env0 cls0 t_epoch t_2001_cest).
  - reflexivity.
  - left. vm_compute. split; discriminate.
Defined.

(** C7, as stated, fails: for the naive timestamp 2038-01-19T03:14:08
    [from_datetime] raises, so there is no identifier to read a generation
    time from. *)
Lemma C7_generation_time_2038_none :
  ~ (exists x st' d,
        from_datetime env0 t_2038 cls0 = Ok (x, st')
        /\ generation_time x = Ok d).
Proof.
  intros (x & st' & d & H & _).
  assert (E : from_datetime env0 t_2038 cls0 = Raise StructError) by reflexivity.
  rewrite E in H. discriminate.
Qed.

(** C7, amended. For every timestamp [t] whose Unix seconds fit a signed
    32-bit integer, [generation_time] of the identifier [from_datetime]
    builds from [t] is [t] cut to whole seconds as a UTC-aware timestamp; it
    reads the first 4 raw bytes as a signed big-endian 32-bit integer and, a
    function of the identifier alone, changes nothing. *)
Theorem C7_generation_time_of_from_datetime (env : environ) (st : ObjectId_cls)
                                            (t : Datetime.datetime) :
  -2147483648 <= Datetime.unix_seconds t <= 2147483647 ->
  exists x,
    from_datetime env t st = Ok (x, st)
    /\ generation_time x = Ok (truncated_utc t)
    /\ Struct.unpack_be_i (slice 0 4 (binary x)) = Ok (Datetime.unix_seconds t).
Proof.
  intros H. eexists. split; [apply from_datetime_ok; exact H |].
  assert (E : Struct.unpack_be_i
                (slice 0 4 (be_i32_spec (Datetime.unix_seconds t) ++ repeat x00 8))
              = Ok (Datetime.unix_seconds t)).
  { change (slice 0 4 (be_i32_spec (Datetime.unix_seconds t) ++ repeat x00 8))
      with (be_i32_spec (Datetime.unix_seconds t)).
    rewrite <- int_to_be_4. apply unpack_pack_be_i. exact H. }
  split; [| exact E].
  unfold generation_time. cbn [binary]. rewrite E. cbn [bind].
  unfold Datetime.fromtimestamp, Datetime.utc, truncated_utc.
  rewrite Z.add_0_r. reflexivity.
Qed.

Lemma C7_generation_time_of_from_datetime_witness :
  -2147483648 <= Datetime.unix_seconds t_2001_cest <= 2147483647
  /\ exists x,
      from_datetime env0 t_2001_cest cls0 = Ok (x, cls0)
      /\ generation_time x = Ok (truncated_utc t_2001_cest)
      /\ Struct.unpack_be_i (slice 0 4 (binary x))
         = Ok (Datetime.unix_seconds t_2001_cest).
Proof.
  assert (H : -2147483648 <= Datetime.unix_seconds t_2001_cest <= 2147483647)
    by (vm_compute; split; discriminate).
  split; [exact H |].
  exact (C7_generation_time_of_from_datetime env0 cls0 t_2001_cest H).
Defined.



Lemma init_length_12 env oid st x st' :
  cls_ok st ->
  __init__ env oid st = Ok (x, st') ->
  (forall o, oid = PyObjectId o -> List.length (binary o) = 12%nat) ->
  List.length (binary x) = 12%nat.
Proof.
  intros Hok Hi Hcopy. unfold __init__ in Hi.
  destruct oid; cbn [__init___with __validate_with bind] in Hi;
    try discriminate Hi.
  - eapply generate_length; eassumption.
  - destruct (List.length b =? 12)%nat eqn:E; [| discriminate Hi].
    assert (Hx := f_equal (fun r => match r with
                                    | Ok p => binary (fst p)
                                    | Raise _ => []
                                    end) Hi).
    cbn [fst binary] in Hx. rewrite <- Hx. apply Nat.eqb_eq. exact E.
  - destruct (String.length s =? 24)%nat eqn:E; [| discriminate Hi].
    destruct (bytes_from_hex s) as [b|e] eqn:Eb.
    + assert (Hx := f_equal (fun r => match r with
                                      | Ok p => binary (fst p)
                                      | Raise _ => []
                                      end) Hi).
      cbn [bind fst binary] in Hx. rewrite <- Hx.
      apply bytes_from_hex_length in Eb. apply Nat.eqb_eq in E. lia.
    + destruct (is_TypeError e || is_ValueError e); discriminate Hi.
  - assert (Hx := f_equal (fun r => match r with
                                    | Ok p => binary (fst p)
                                    | Raise _ => []
                                    end) Hi).
    cbn [fst binary] in Hx. rewrite <- Hx. apply Hcopy. reflexivity.
Qed.

Lemma from_datetime_length_12 env t st x st' :
  from_datetime env t st = Ok (x, st') -> List.length (binary x) = 12%nat.
Proof.
  intros Hf.
  destruct (Z_le_dec (-2147483648) (Datetime.unix_seconds t)) as [H1|H1];
    [destruct (Z_le_dec (Datetime.unix_seconds t) 2147483647) as [H2|H2] |].
  - rewrite from_datetime_ok in Hf by lia.
    assert (Hx := f_equal (fun r => match r with
                                    | Ok p => binary (fst p)
                                    | Raise _ => []
                                    end) Hf).
    cbn [fst binary] in Hx. rewrite <- Hx. reflexivity.
  - rewrite from_datetime_raise_exact in Hf by lia. discriminate Hf.
  - rewrite from_datetime_raise_exact in Hf by lia. discriminate Hf.
Qed.

(** C9, as stated, fails on the copy path: [abc], a 3-byte value as
    [__setstate__] restores it, is copied by the constructor unchecked, and
    the copy has 3 raw bytes. *)
Lemma C9_copy_of_3_bytes_has_3_bytes :
  __setstate__ (StLeaf (StBytes [x61; x62; x63])) = Restored abc
  /\ __init__ env0 (PyObjectId abc) cls0 = Ok (abc, cls0)
  /\ List.length (binary abc) = 3%nat
  /\ ~ (forall env oid st x st',
           reachable st -> __init__ env oid st = Ok (x, st') ->
           List.length (binary x) = 12%nat).
Proof.
  split; [reflexivity |]. split; [reflexivity |]. split; [reflexivity |].
  intros H.
  specialize (H env0 (PyObjectId abc) cls0 abc cls0 reachable_cls0 eq_refl).
  discriminate H.
Qed.

(** C9, amended. Every identifier produced by fresh generation, by
    construction from 12 raw bytes or from a 24-character hex string, by
    [from_datetime], or by copying an identifier that has 12 raw bytes, has
    exactly 12 raw bytes; the copy of any identifier holds that identifier's
    raw bytes, unchecked.  So every identifier obtained through these paths
    alone has 12 raw bytes. *)
Theorem C9_construction_length_12 (x : ObjectId) :
  (forall env oid st st',
      reachable st ->
      __init__ env oid st = Ok (x, st') ->
      (forall o, oid = PyObjectId o -> List.length (binary o) = 12%nat) ->
      List.length (binary x) = 12%nat)
  /\ (forall env t st st',
         from_datetime env t st = Ok (x, st') -> List.length (binary x) = 12%nat)
  /\ (forall env o st st',
         __init__ env (PyObjectId o) st = Ok (x, st') -> binary x = binary o)
  /\ (constructed x -> List.length (binary x) = 12%nat).
Proof.
  split.
  { intros env oid st st' Hr. apply init_length_12, reachable_cls_ok, Hr. }
  split; [intros env t st st'; apply from_datetime_length_12 |].
  split.
  { intros env o st st' Hi.
    assert (Hx := f_equal (fun r => match r with
                                    | Ok p => binary (fst p)
                                    | Raise _ => []
                                    end) Hi).
    cbn [fst binary] in Hx. symmetry. exact Hx. }
  induction 1 as [env oid st x st' Hr _ IH Hi | env t st x st' Hr Hf].
  - eapply init_length_12; [apply reachable_cls_ok | |]; eassumption.
  - eapply from_datetime_length_12; eassumption.
Qed.

Lemma C9_construction_length_12_witness :
  reachable cls0
  /\ __init__ env0 (PyBytes (binary foo_bar_quux)) cls0 = Ok (foo_bar_quux, cls0)
  /\ List.length (binary foo_bar_quux) = 12%nat.
Proof.
  assert (H : __init__ env0 (PyBytes (binary foo_bar_quux)) cls0
              = Ok (foo_bar_quux, cls0)) by reflexivity.
  split; [exact reachable_cls0 |]. split; [exact H |].
  apply (proj1 (C9_construction_length_12 foo_bar_quux)
               env0 (PyBytes (binary foo_bar_quux)) cls0 cls0 reachable_cls0 H).
  intros o E. discriminate E.
Defined.

(** C10. Each of the six comparison methods returns [NotImplemented] when
    the other operand is not an [ObjectId]; so [__eq__] of an identifier
    with its own raw bytes, or with its own hex rendering, is
    [NotImplemented] and not true. *)
Theorem C10_comparison_with_other_types (x : ObjectId) :
  (forall other, isinstance_ObjectId other = false ->
     __eq__ x other = NotImplemented /\ __ne__ x other = NotImplemented
     /\ __lt__ x other = NotImplemented /\ __le__ x other = NotImplemented
     /\ __gt__ x other = NotImplemented /\ __ge__ x other = NotImplemented)
  /\ __eq__ x (PyBytes (binary x)) = NotImplemented
  /\ __eq__ x (PyStr (__str__ x)) = NotImplemented
  /\ __eq__ x (PyBytes (binary x)) <> CmpBool true
  /\ __eq__ x (PyStr (__str__ x)) <> CmpBool true.
Proof.
  split.
  - intros other H. destruct other; try discriminate H; repeat split.
  - repeat split; discriminate.
Qed.

Lemma C10_comparison_with_other_types_witness :
  isinstance_ObjectId (PyBytes (binary foo_bar_quux)) = false
  /\ __eq__ foo_bar_quux (PyBytes (binary foo_bar_quux)) = NotImplemented.
Proof.
  split; [reflexivity |].
  apply (proj1 (C10_comparison_with_other_types foo_bar_quux)
               (PyBytes (binary foo_bar_quux))).
  reflexivity.
Defined.

(** * Further properties of the module *)

(** ** The order on byte strings *)

Lemma bytes_eqb_eq (a b : bytes) : bytes_eqb a b = true <-> a = b.
Proof.
  unfold bytes_eqb. destruct (list_eq_dec Byte.byte_eq_dec a b); split;
    congruence.
Qed.

Lemma bytes_lt_trans (a b c : bytes) :
  bytes_lt a b = true -> bytes_lt b c = true -> bytes_lt a c = true.
Proof.
  revert b c. induction a as [|x a IH]; intros [|y b] [|z c]; cbn [bytes_lt];
    try discriminate; try reflexivity.
  destruct (Z.ltb_spec (byte_to_Z x) (byte_to_Z y)) as [Hxy|Hxy].
  - intros _.
    destruct (Z.ltb_spec (byte_to_Z y) (byte_to_Z z)) as [Hyz|Hyz].
    + intros _. destruct (Z.ltb_spec (byte_to_Z x) (byte_to_Z z)); [reflexivity | lia].
    + destruct (Z.ltb_spec (byte_to_Z z) (byte_to_Z y)); [discriminate |].
      intros _. destruct (Z.ltb_spec (byte_to_Z x) (byte_to_Z z)); [reflexivity | lia].
  - destruct (Z.ltb_spec (byte_to_Z y) (byte_to_Z x)) as [Hyx|Hyx]; [discriminate |].
    intros Hab.
    destruct (Z.ltb_spec (byte_to_Z y) (byte_to_Z z)) as [Hyz|Hyz].
    + intros _. destruct (Z.ltb_spec (byte_to_Z x) (byte_to_Z z)); [reflexivity | lia].
    + destruct (Z.ltb_spec (byte_to_Z z) (byte_to_Z y)) as [Hzy|Hzy]; [discriminate |].
      intros Hbc.
      destruct (Z.ltb_spec (byte_to_Z x) (byte_to_Z z)); [reflexivity |].
      destruct (Z.ltb_spec (byte_to_Z z) (byte_to_Z x)); [lia |].
      exact (IH b c Hab Hbc).
Qed.

Lemma bytes_lt_total (a b : bytes) :
  bytes_lt a b = false -> bytes_lt b a = false -> a = b.
Proof.
  revert b. induction a as [|x a IH]; intros [|y b]; cbn [bytes_lt];
    try discriminate; try reflexivity.
  destruct (Z.ltb_spec (byte_to_Z x) (byte_to_Z y)) as [Hxy|Hxy]; [discriminate |].
  destruct (Z.ltb_spec (byte_to_Z y) (byte_to_Z x)) as [Hyx|Hyx]; [discriminate |].
  intros Hab Hba. f_equal.
  - rewrite <- (byte_of_to_Z x), <- (byte_of_to_Z y). f_equal. lia.
  - exact (IH b Hab Hba).
Qed.

Lemma bytes_lt_asym (a b : bytes) : bytes_lt a b = true -> bytes_lt b a = false.
Proof.
  intros H. destruct (bytes_lt b a) eqn:E; [| reflexivity].
  pose proof (bytes_lt_trans _ _ _ H E) as C.
  rewrite bytes_lt_refl_false in C. discriminate.
Qed.

Lemma bytes_le_not_lt (a b : bytes) : bytes_le a b = negb (bytes_lt b a).
Proof.
  unfold bytes_le.
  destruct (bytes_lt a b) eqn:Hab.
  - rewrite (bytes_lt_asym _ _ Hab). reflexivity.
  - destruct (bytes_lt b a) eqn:Hba; cbn [orb negb].
    + destruct (bytes_eqb a b) eqn:E; [| reflexivity].
      apply bytes_eqb_eq in E. subst b.
      rewrite bytes_lt_refl_false in Hba. discriminate.
    + apply bytes_eqb_eq. apply bytes_lt_total; assumption.
Qed.

Lemma be_val_inj (a b : bytes) :
  List.length a = List.length b -> be_val a = be_val b -> a = b.
Proof.
  intros Hlen Hval.
  pose proof (bytes_lt_be_val a b [] Hlen) as H1.
  pose proof (bytes_lt_be_val b a [] (eq_sym Hlen)) as H2.
  rewrite !app_nil_r in H1, H2.
  apply bytes_lt_total.
  - rewrite H1. apply Z.ltb_ge. lia.
  - rewrite H2. apply Z.ltb_ge. lia.
Qed.

Lemma bytes_lt_prefix (a b r1 r2 : bytes) :
  List.length a = List.length b -> be_val a < be_val b ->
  bytes_lt (a ++ r1) (b ++ r2) = true.
Proof.
  revert b. induction a as [|x a IH]; intros [|y b] Hlen Hval;
    simpl in Hlen; try discriminate.
  injection Hlen as Hlen. cbn [app bytes_lt]. cbn [be_val] in Hval.
  rewrite <- Hlen in Hval.
    pose proof (be_val_range a) as Ha. pose proof (be_val_range b) as Hb.
    rewrite <- Hlen in Hb.
    assert (Hp : 0 < 256 ^ Z.of_nat (List.length a)) by (apply Z.pow_pos_nonneg; lia).
    destruct (Z.ltb_spec (byte_to_Z x) (byte_to_Z y)) as [H1|H1]; [reflexivity |].
    destruct (Z.ltb_spec (byte_to_Z y) (byte_to_Z x)) as [H2|H2]; [nia |].
    apply IH; [exact Hlen |].
    assert (E : byte_to_Z x = byte_to_Z y) by lia. rewrite E in Hval. lia.
Qed.

(** ** Comparison of identifiers *)

(** X1. [__eq__] between identifiers is true exactly when they hold the
    same raw bytes, and [__ne__] is true exactly when they do not. *)
Theorem eq_ne_decide_raw_bytes (x y : ObjectId) :
  (__eq__ x (PyObjectId y) = CmpBool true <-> x = y)
  /\ (__eq__ x (PyObjectId y) = CmpBool false <-> x <> y)
  /\ (__ne__ x (PyObjectId y) = CmpBool true <-> x <> y)
  /\ (__ne__ x (PyObjectId y) = CmpBool false <-> x = y).
Proof.
  destruct x as [a], y as [b]. cbn [__eq__ __ne__ binary].
  pose proof (bytes_eqb_eq a b) as [H1 H2].
  destruct (bytes_eqb a b) eqn:E; cbn [negb].
  - specialize (H1 eq_refl). subst b.
    repeat split; intros H; try reflexivity; try discriminate H;
      exfalso; apply H; reflexivity.
  - assert (Hne : a <> b) by (intros ->; specialize (H2 eq_refl); discriminate).
    repeat split; intros H; try reflexivity; try discriminate H;
      try (intros C; injection C as C; contradiction);
      injection H as H; contradiction.
Qed.

Lemma eq_ne_decide_raw_bytes_witness :
  __eq__ foo_bar_quux (PyObjectId foo_bar_quux) = CmpBool true
  /\ foo_bar_quux = foo_bar_quux.
Proof.
  assert (H : __eq__ foo_bar_quux (PyObjectId foo_bar_quux) = CmpBool true)
    by reflexivity.
  split; [exact H |].
  exact (proj1 (proj1 (eq_ne_decide_raw_bytes foo_bar_quux foo_bar_quux)) H).
Defined.

(** X2. [__lt__] is a strict total order on identifiers: no identifier is
    below itself, the relation is transitive, and of two distinct
    identifiers exactly one is below the other. *)
Theorem lt_strict_total_order (x y z : ObjectId) :
  __lt__ x (PyObjectId x) = CmpBool false
  /\ (__lt__ x (PyObjectId y) = CmpBool true ->
      __lt__ y (PyObjectId z) = CmpBool true ->
      __lt__ x (PyObjectId z) = CmpBool true)
  /\ (__lt__ x (PyObjectId y) = CmpBool true ->
      __lt__ y (PyObjectId x) = CmpBool false)
  /\ (x <> y ->
      __lt__ x (PyObjectId y) = CmpBool true
      \/ __lt__ y (PyObjectId x) = CmpBool true).
Proof.
  destruct x as [a], y as [b], z as [c]. cbn [__lt__ binary].
  split; [rewrite bytes_lt_refl_false; reflexivity |].
  split.
  { intros H1 H2. injection H1 as H1. injection H2 as H2.
    rewrite (bytes_lt_trans _ _ _ H1 H2). reflexivity. }
  split.
  { intros H1. injection H1 as H1. rewrite (bytes_lt_asym _ _ H1). reflexivity. }
  intros Hne.
  destruct (bytes_lt a b) eqn:Hab; [left; reflexivity |].
  destruct (bytes_lt b a) eqn:Hba; [right; reflexivity |].
  exfalso. apply Hne. f_equal. apply bytes_lt_total; assumption.
Qed.

Lemma lt_strict_total_order_witness :
  mkObjectId (repeat x00 12) <> foo_bar_quux
  /\ (__lt__ (mkObjectId (repeat x00 12)) (PyObjectId foo_bar_quux) = CmpBool true
      \/ __lt__ foo_bar_quux (PyObjectId (mkObjectId (repeat x00 12))) = CmpBool true).
Proof.
  assert (H : mkObjectId (repeat x00 12) <> foo_bar_quux) by discriminate.
  split; [exact H |].
  exact (proj2 (proj2 (proj2
    (lt_strict_total_order (mkObjectId (repeat x00 12)) foo_bar_quux foo_bar_quux))) H).
Defined.

(** X3. The other order methods agree with [__lt__]: [x > y] is [y < x],
    [x >= y] is the negation of [x < y], [x <= y] is the negation of
    [y < x], and [x <= y] holds exactly when [x < y] or [x == y]. *)
Theorem order_methods_agree_with_lt (x y : ObjectId) :
  __gt__ x (PyObjectId y) = __lt__ y (PyObjectId x)
  /\ __ge__ x (PyObjectId y) = CmpBool (negb (bytes_lt (binary x) (binary y)))
  /\ __le__ x (PyObjectId y) = CmpBool (negb (bytes_lt (binary y) (binary x)))
  /\ __ge__ x (PyObjectId y) = __le__ y (PyObjectId x)
  /\ (__le__ x (PyObjectId y) = CmpBool true <->
      __lt__ x (PyObjectId y) = CmpBool true \/ __eq__ x (PyObjectId y) = CmpBool true)
  /\ (__le__ x (PyObjectId y) = CmpBool true ->
      __ge__ x (PyObjectId y) = CmpBool true -> x = y).
Proof.
  destruct x as [a], y as [b]. cbn [__gt__ __ge__ __le__ __lt__ __eq__ binary].
  split; [reflexivity |].
  split; [rewrite bytes_le_not_lt; reflexivity |].
  split; [rewrite bytes_le_not_lt; reflexivity |].
  split; [reflexivity |].
  split.
  - unfold bytes_le. destruct (bytes_lt a b), (bytes_eqb a b); cbn [orb];
      split; intros H; try reflexivity; try discriminate H;
      try (left; reflexivity); try (right; reflexivity).
    destruct H as [H | H]; discriminate H.
  - rewrite !bytes_le_not_lt. intros H1 H2.
    injection H1 as H1. injection H2 as H2.
    f_equal. apply bytes_lt_total.
    + destruct (bytes_lt a b); [discriminate | reflexivity].
    + destruct (bytes_lt b a); [discriminate | reflexivity].
Qed.

Lemma order_methods_agree_with_lt_witness :
  __le__ foo_bar_quux (PyObjectId foo_bar_quux) = CmpBool true
  /\ __ge__ foo_bar_quux (PyObjectId foo_bar_quux) = CmpBool true
  /\ foo_bar_quux = foo_bar_quux.
Proof.
  assert (H1 : __le__ foo_bar_quux (PyObjectId foo_bar_quux) = CmpBool true)
    by reflexivity.
  assert (H2 : __ge__ foo_bar_quux (PyObjectId foo_bar_quux) = CmpBool true)
    by reflexivity.
  split; [exact H1 |]. split; [exact H2 |].
  exact (proj2 (proj2 (proj2 (proj2 (proj2
    (order_methods_agree_with_lt foo_bar_quux foo_bar_quux))))) H1 H2).
Defined.

(** ** The machine bytes *)

Lemma le_val_int_to_le (w : nat) (x : Z) :
  le_val (Struct.int_to_le w x) = x mod 256 ^ Z.of_nat w.
Proof.
  revert x. induction w as [|w IH]; intros x.
  - simpl. rewrite Z.mod_1_r. reflexivity.
  - cbn [Struct.int_to_le le_val]. rewrite IH, byte_to_of_Z, land_255, shiftr_8.
    rewrite Z.mod_mod by lia.
    rewrite (Nat2Z.inj_succ w), Z.pow_succ_r by lia.
    rewrite (Z.rem_mul_r x 256 (256 ^ Z.of_nat w)) by lia.
    reflexivity.
Qed.

Lemma firstn_int_to_le (n w : nat) (x : Z) :
  (n <= w)%nat -> firstn n (Struct.int_to_le w x) = Struct.int_to_le n x.
Proof.
  revert w x. induction n as [|n IH]; intros w x Hle.
  - reflexivity.
  - destruct w as [|w]; [lia |]. cbn [Struct.int_to_le firstn].
    rewrite IH by lia. reflexivity.
Qed.

(** X4. [_machine_bytes] never fails: for every host name it gives exactly
    3 bytes, the little-endian bytes of the 24-bit hash of the name, so
    dropping the padding byte of the packed 32-bit word loses nothing. *)
Theorem machine_bytes_three_le_bytes_of_hash (hostname : bytes) :
  exists mb,
    _machine_bytes hostname = Ok mb
    /\ List.length mb = 3%nat
    /\ le_val mb = _fnv_1a_24 hostname
    /\ Struct.pack_le_I (_fnv_1a_24 hostname) = Ok (mb ++ [x00]).
Proof.
  pose proof (fnv_1a_24_range hostname) as Hr.
  assert (Hp : Struct.pack_le_I (_fnv_1a_24 hostname)
               = Ok (Struct.int_to_le 4 (_fnv_1a_24 hostname))).
  { unfold Struct.pack_le_I.
    destruct (Z.leb_spec 0 (_fnv_1a_24 hostname)); [| lia].
    destruct (Z.leb_spec (_fnv_1a_24 hostname) 4294967295); [| lia].
    reflexivity. }
  exists (Struct.int_to_le 3 (_fnv_1a_24 hostname)).
  split.
  { unfold _machine_bytes. rewrite Hp. cbn [bind].
    rewrite firstn_int_to_le by lia. reflexivity. }
  split; [apply int_to_le_length |].
  split.
  { rewrite le_val_int_to_le. apply Z.mod_small.
    change (256 ^ Z.of_nat 3) with (2 ^ 24). exact Hr. }
  rewrite Hp. f_equal. cbn [Struct.int_to_le app]. do 3 f_equal.
  rewrite land_255, !shiftr_8, !Z.div_div by lia.
  rewrite (Z.div_small (_fnv_1a_24 hostname)) by (change (256 * 256 * 256) with (2 ^ 24); lia).
  reflexivity.
Qed.

(** ** Generation *)

Lemma generate_raise_time env st :
  ~ (-2147483648 <= time_time env <= 2147483647) ->
  __generate env st = Raise StructError.
Proof.
  intros H. unfold __generate. rewrite (pack_be_i_raise _ H). reflexivity.
Qed.

Lemma be_val_be_u16 (n : Z) : be_val (be_u16_spec n) = n mod 65536.
Proof. rewrite <- int_to_be_2, be_val_int_to_be. reflexivity. Qed.

Lemma be_val_be_u24 (n : Z) : be_val (be_u24_spec n) = n mod 16777216.
Proof.
  change (be_u24_spec n) with (map byte_of_Z [n / 2 ^ 16; n / 2 ^ 8; n]).
  assert (E : map byte_of_Z [n / 2 ^ 16; n / 2 ^ 8; n] = Struct.int_to_be 3 n).
  { simpl. rewrite !land_255, !shiftr_8, !byte_of_Z_mod, !Z.div_div by lia.
    reflexivity. }
  rewrite E, be_val_int_to_be. reflexivity.
Qed.

(** X5. In a reachable class state [ObjectId()] succeeds exactly when the
    clock's second fits a signed 32-bit integer, and raises [struct.error]
    otherwise.  The identifier has 12 bytes: the clock in [0:4], the cached
    machine bytes in [4:7], the process id modulo 65535 in [7:9] (so never
    [ff ff]) and the counter before the call in [9:12]; the counter
    afterwards is below 16777215. *)
Theorem generate_layout (env : environ) (st : ObjectId_cls) :
  reachable st ->
  (-2147483648 <= time_time env <= 2147483647 ->
   exists x st',
     __init__ env PyNone st = Ok (x, st')
     /\ List.length (binary x) = 12%nat
     /\ slice 0 4 (binary x) = be_i32_spec (time_time env)
     /\ slice 4 7 (binary x) = ObjectId_machine_bytes st
     /\ be_val (slice 7 9 (binary x)) = os_getpid env mod 65535
     /\ be_val (slice 9 12 (binary x)) = ObjectId_inc st
     /\ ObjectId_machine_bytes st' = ObjectId_machine_bytes st
     /\ ObjectId_inc st' = (ObjectId_inc st + 1) mod 16777215
     /\ 0 <= ObjectId_inc st' < 16777215)
  /\ (~ (-2147483648 <= time_time env <= 2147483647) ->
      __init__ env PyNone st = Raise StructError).
Proof.
  intros Hr. pose proof (reachable_cls_ok _ Hr) as Hok.
  split; [| apply generate_raise_time].
  intros Ht. destruct Hok as [Hinc Hlen].
  destruct (generate_ok env st Ht ltac:(lia)) as (x & st' & Hg).
  exists x, st'. cbn [__init__ __init___with]. split; [exact Hg |].
  split; [eapply generate_length; [split |]; eassumption |].
  destruct (generate_fields env st x st' (conj Hinc Hlen) Hg)
    as (F1 & F2 & F3 & F4 & F5).
  split; [exact F1 |]. split; [exact F2 |].
  split.
  { rewrite F3, be_val_be_u16.
    pose proof (Z.mod_pos_bound (os_getpid env) 65535 ltac:(lia)).
    apply Z.mod_small. lia. }
  split; [rewrite F4, be_val_be_u24; apply Z.mod_small; lia |].
  apply generate_inv in Hg. destruct Hg as [_ ->]. cbn [ObjectId_inc ObjectId_machine_bytes].
  split; [reflexivity |]. split; [reflexivity |].
  apply Z.mod_pos_bound. lia.
Qed.

Lemma generate_layout_witness :
  reachable cls0
  /\ -2147483648 <= time_time env0 <= 2147483647
  /\ exists x st',
      __init__ env0 PyNone cls0 = Ok (x, st')
      /\ List.length (binary x) = 12%nat
      /\ slice 0 4 (binary x) = be_i32_spec (time_time env0)
      /\ slice 4 7 (binary x) = ObjectId_machine_bytes cls0
      /\ be_val (slice 7 9 (binary x)) = os_getpid env0 mod 65535
      /\ be_val (slice 9 12 (binary x)) = ObjectId_inc cls0
      /\ ObjectId_machine_bytes st' = ObjectId_machine_bytes cls0
      /\ ObjectId_inc st' = (ObjectId_inc cls0 + 1) mod 16777215
      /\ 0 <= ObjectId_inc st' < 16777215.
Proof.
  assert (Ht : -2147483648 <= time_time env0 <= 2147483647)
    by (vm_compute; split; discriminate).
  split; [exact reachable_cls0 |]. split; [exact Ht |].
  exact (proj1 (generate_layout env0 cls0 reachable_cls0) Ht).
Defined.

(** X6. [generation_time] of a freshly generated identifier is the clock's
    second of the call, as a UTC-aware timestamp, whatever the class
    attributes were. *)
Theorem generation_time_of_generated (env : environ) (st st' : ObjectId_cls)
                                     (x : ObjectId) :
  __init__ env PyNone st = Ok (x, st') ->
  generation_time x = Ok (Datetime.mkDatetime (time_time env * 1000000) (Some 0))
  /\ Datetime.unix_seconds (Datetime.mkDatetime (time_time env * 1000000) (Some 0))
     = time_time env.
Proof.
  cbn [__init__ __init___with]. intros Hg.
  assert (Ht : -2147483648 <= time_time env <= 2147483647).
  { destruct (Z_le_dec (-2147483648) (time_time env)) as [H1|H1];
      destruct (Z_le_dec (time_time env) 2147483647) as [H2|H2];
      try (split; assumption);
      rewrite generate_raise_time in Hg by lia; discriminate. }
  apply generate_inv in Hg. destruct Hg as [Hb _].
  split.
  - unfold generation_time. rewrite Hb.
    change (slice 0 4 (be_i32_spec (time_time env) ++ _))
      with (be_i32_spec (time_time env)).
    rewrite <- int_to_be_4, (unpack_pack_be_i _ Ht). cbn [bind].
    unfold Datetime.fromtimestamp, Datetime.utc. rewrite Z.add_0_r. reflexivity.
  - unfold Datetime.unix_seconds, Datetime.utc_instant. cbn [Datetime.tzinfo Datetime.wall].
    rewrite Z.sub_0_r. apply Z.div_mul. lia.
Qed.

Lemma generation_time_of_generated_witness :
  exists x st',
    __init__ env0 PyNone cls0 = Ok (x, st')
    /\ generation_time x
       = Ok (Datetime.mkDatetime (time_time env0 * 1000000) (Some 0)).
Proof.
  eexists. eexists.
  assert (H : __init__ env0 PyNone cls0 = Ok (_, _)) by (vm_compute; reflexivity).
  split; [exact H |].
  exact (proj1 (generation_time_of_generated env0 cls0 _ _ H)).
Defined.

(** X7. Identifiers generated at different seconds sort by time: if the
    clock read [t1] for the first and [t2] for the second with
    [0 <= t1 < t2], the first is below the second under [__lt__], whatever
    the machine bytes, process ids and counters were. *)
Theorem generated_sort_by_time (env1 env2 : environ) (st1 st1' st2 st2' : ObjectId_cls)
                               (x1 x2 : ObjectId) :
  __init__ env1 PyNone st1 = Ok (x1, st1') ->
  __init__ env2 PyNone st2 = Ok (x2, st2') ->
  0 <= time_time env1 < time_time env2 ->
  __lt__ x1 (PyObjectId x2) = CmpBool true
  /\ __lt__ x2 (PyObjectId x1) = CmpBool false.
Proof.
  cbn [__init__ __init___with]. intros H1 H2 Ht.
  assert (Ht2 : time_time env2 <= 2147483647).
  { destruct (Z_le_dec (time_time env2) 2147483647) as [H|H]; [exact H |].
    rewrite generate_raise_time in H2 by lia. discriminate. }
  apply generate_inv in H1. destruct H1 as [E1 _].
  apply generate_inv in H2. destruct H2 as [E2 _].
  assert (L : bytes_lt (binary x1) (binary x2) = true).
  { rewrite E1, E2. apply bytes_lt_prefix; [reflexivity |].
    rewrite !be_i32_spec_val, !Z.mod_small by lia. lia. }
  cbn [__lt__]. rewrite L, (bytes_lt_asym _ _ L). split; reflexivity.
Qed.

Lemma generated_sort_by_time_witness :
  exists x1 x2 st1' st2',
    __init__ env0 PyNone cls0 = Ok (x1, st1')
    /\ __init__ (mkEnviron 1700000001 1) PyNone cls0 = Ok (x2, st2')
    /\ __lt__ x1 (PyObjectId x2) = CmpBool true.
Proof.
  do 4 eexists.
  assert (H1 : __init__ env0 PyNone cls0 = Ok (_, _)) by (vm_compute; reflexivity).
  assert (H2 : __init__ (mkEnviron 1700000001 1) PyNone cls0 = Ok (_, _))
    by (vm_compute; reflexivity).
  split; [exact H1 |]. split; [exact H2 |].
  apply (generated_sort_by_time env0 (mkEnviron 1700000001 1) cls0 _ cls0 _ _ _ H1 H2).
  vm_compute. split; [discriminate | reflexivity].
Defined.

(** ** The counter over successive generations *)

Lemma counter_after_succ (c : Z) (k : nat) :
  counter_after ((c + 1) mod 16777215) k = counter_after c (S k).
Proof.
  destruct k as [|k]; cbn [counter_after].
  - reflexivity.
  - rewrite Z.add_mod_idemp_l by lia. f_equal. lia.
Qed.

Lemma counter_after_range (c : Z) (k : nat) :
  0 <= c <= 16777215 -> 0 <= counter_after c k <= 16777215.
Proof.
  intros Hc. destruct k as [|k]; cbn [counter_after]; [exact Hc |].
  pose proof (Z.mod_pos_bound (c + Z.of_nat (S k)) 16777215 ltac:(lia)). lia.
Qed.

Lemma counter_after_inj (c : Z) (i j : nat) :
  0 <= c <= 16777215 -> Z.of_nat i < 16777215 -> Z.of_nat j < 16777215 ->
  counter_after c i = counter_after c j -> i = j.
Proof.
  intros Hc Hi Hj.
  assert (Hmod : forall a, a mod 16777215 = a - 16777215 * (a / 16777215)
                           /\ 0 <= a mod 16777215 < 16777215).
  { intros a. split; [| apply Z.mod_pos_bound; lia].
    pose proof (Z.div_mod a 16777215 ltac:(lia)). lia. }
  destruct i as [|i], j as [|j]; cbn [counter_after]; intros E.
  - reflexivity.
  - destruct (Hmod (c + Z.of_nat (S j))) as [E1 B1]. lia.
  - destruct (Hmod (c + Z.of_nat (S i))) as [E1 B1]. lia.
  - destruct (Hmod (c + Z.of_nat (S i))) as [E1 B1].
    destruct (Hmod (c + Z.of_nat (S j))) as [E2 B2]. lia.
Qed.

Lemma be_u24_spec_inj (m n : Z) :
  0 <= m < 16777216 -> 0 <= n < 16777216 -> be_u24_spec m = be_u24_spec n -> m = n.
Proof.
  intros Hm Hn E. apply (f_equal be_val) in E.
  rewrite !be_val_be_u24, !Z.mod_small in E by lia. exact E.
Qed.

Lemma generate_all_counters (envs : list environ) :
  forall st ids st',
    cls_ok st ->
    generate_all envs st = Ok (ids, st') ->
    map counter_field ids
    = map (fun k => be_u24_spec (counter_after (ObjectId_inc st) k))
          (seq 0 (List.length envs))
    /\ List.length ids = List.length envs
    /\ ObjectId_inc st' = counter_after (ObjectId_inc st) (List.length envs).
Proof.
  induction envs as [|env rest IH]; intros st ids st' Hok H.
  - injection H as <- <-. repeat split.
  - cbn [generate_all] in H.
    destruct (__init__ env PyNone st) as [[x st1]|e] eqn:Hg; [| discriminate].
    cbn [bind snd fst] in H.
    destruct (generate_all rest st1) as [[xs st2]|e] eqn:Hrest; [| discriminate].
    cbn [bind snd fst] in H. injection H as <- <-.
    pose proof (init_preserves_cls_ok _ _ _ _ _ Hok Hg) as Hok1.
    cbn [__init__ __init___with] in Hg.
    destruct (generate_fields _ _ _ _ Hok Hg) as (_ & _ & _ & F4 & F5).
    destruct (IH st1 xs st2 Hok1 Hrest) as (IH1 & IH2 & IH3).
    cbn [List.length seq map]. split; [| split].
    + f_equal; [exact F4 |].
      rewrite IH1, <- seq_shift, map_map.
      apply map_ext. intros k. rewrite F5, counter_after_succ. reflexivity.
    + rewrite IH2. reflexivity.
    + rewrite IH3, F5. apply counter_after_succ.
Qed.

(** X8. Successive [ObjectId()] calls from a reachable class state, up to
    2^24 - 1 of them, issue pairwise distinct counter fields, hence pairwise
    distinct identifiers, whatever the clock and the process id read; the
    [k]-th call after a counter value [c] stores [c] itself for [k = 0] and
    [(c + k) mod (2^24 - 1)] afterwards. *)
Theorem generations_have_distinct_counters (envs : list environ)
    (st st' : ObjectId_cls) (ids : list ObjectId) :
  reachable st ->
  generate_all envs st = Ok (ids, st') ->
  Z.of_nat (List.length envs) <= 16777215 ->
  NoDup (map counter_field ids)
  /\ NoDup ids
  /\ List.length ids = List.length envs
  /\ map counter_field ids
     = map (fun k => be_u24_spec (counter_after (ObjectId_inc st) k))
           (seq 0 (List.length envs)).
Proof.
  intros Hr H Hn. pose proof (reachable_cls_ok _ Hr) as Hok.
  destruct (generate_all_counters envs st ids st' Hok H) as (Hc & Hlen & _).
  destruct Hok as [Hinc _].
  assert (Hnd : NoDup (map counter_field ids)).
  { rewrite Hc. apply NoDup_map_NoDup_ForallPairs; [| apply seq_NoDup].
    intros i j Hi Hj E. apply in_seq in Hi, Hj.
    apply be_u24_spec_inj in E.
    - apply (counter_after_inj (ObjectId_inc st)); [lia | lia | lia | exact E].
    - pose proof (counter_after_range (ObjectId_inc st) i ltac:(lia)). lia.
    - pose proof (counter_after_range (ObjectId_inc st) j ltac:(lia)). lia. }
  split; [exact Hnd |].
  split; [exact (NoDup_map_inv _ _ Hnd) |].
  split; [exact Hlen | exact Hc].
Qed.

Lemma generations_have_distinct_counters_witness :
  exists ids st',
    generate_all [env0; env0; env0] cls0 = Ok (ids, st')
    /\ NoDup (map counter_field ids)
    /\ NoDup ids.
Proof.
  do 2 eexists.
  assert (H : generate_all [env0; env0; env0] cls0 = Ok (_, _))
    by (vm_compute; reflexivity).
  split; [exact H |].
  assert (Hn : Z.of_nat (List.length [env0; env0; env0]) <= 16777215)
    by (vm_compute; discriminate).
  pose proof (generations_have_distinct_counters _ _ _ _ reachable_cls0 H Hn) as P.
  split; [exact (proj1 P) | exact (proj1 (proj2 P))].
Defined.

(** ** The constructor on candidates *)

(** X9. How [ObjectId(oid)] fails.  A string whose length is not 24 raises
    [InvalidId]; a byte string whose length is not 12, an integer, a boolean
    or an object of another class raises [TypeError]; whenever the
    constructor raises on a candidate other than [None], the exception is
    [TypeError] or the [InvalidId] naming that very candidate, which is then
    a string. *)
Theorem init_failures (env : environ) (st : ObjectId_cls) :
  (forall s, String.length s <> 24%nat ->
             __init__ env (PyStr s) st = Raise (InvalidId (PyStr s)))
  /\ (forall b, List.length b <> 12%nat ->
                __init__ env (PyBytes b) st = Raise TypeError)
  /\ (forall n, __init__ env (PyInt n) st = Raise TypeError)
  /\ (forall b, __init__ env (PyBool b) st = Raise TypeError)
  /\ (forall truth, __init__ env (PyOther truth) st = Raise TypeError)
  /\ (forall oid e, oid <> PyNone -> __init__ env oid st = Raise e ->
                    e = TypeError
                    \/ (e = InvalidId oid /\ exists s, oid = PyStr s)).
Proof.
  split.
  { intros s Hs. cbn [__init__ __init___with __validate __validate_with].
    destruct (Nat.eqb_spec (String.length s) 24); [contradiction | reflexivity]. }
  split.
  { intros b Hb. cbn [__init__ __init___with __validate __validate_with].
    destruct (Nat.eqb_spec (List.length b) 12); [contradiction | reflexivity]. }
  split; [reflexivity |]. split; [reflexivity |]. split; [reflexivity |].
  intros oid e Hne H.
  destruct oid; cbn [__init__ __init___with __validate __validate_with bind] in H;
    try (injection H as <-; left; reflexivity); try discriminate H;
    try contradiction.
  - destruct (List.length b =? 12)%nat; [discriminate H |].
    injection H as <-. left. reflexivity.
  - right.
    destruct (String.length s =? 24)%nat.
    + destruct (bytes_from_hex s) as [b|e'] eqn:E; [discriminate H |].
      apply bytes_from_hex_raise in E. subst e'.
      cbn [is_TypeError is_ValueError orb bind] in H. injection H as <-.
      split; [reflexivity | eexists; reflexivity].
    + injection H as <-. split; [reflexivity | eexists; reflexivity].
Qed.

Lemma init_failures_witness :
  String.length "0123" <> 24%nat
  /\ __init__ env0 (PyStr "0123") cls0 = Raise (InvalidId (PyStr "0123")).
Proof.
  assert (H : String.length "0123" <> 24%nat) by discriminate.
  split; [exact H |].
  exact (proj1 (init_failures env0 cls0) "0123"%string H).
Defined.

Lemma init_with_not_none_state from_hex env oid st x st' :
  oid <> PyNone -> __init___with from_hex env oid st = Ok (x, st') -> st' = st.
Proof.
  intros Hne H.
  assert (Hv : (self <- __validate_with from_hex oid ;; Ok (self, st))
               = Ok (x, st') -> st' = st).
  { destruct (__validate_with from_hex oid); cbn [bind]; [| discriminate].
    intros E.
    exact (eq_sym (f_equal (fun r => match r with
                                     | Ok p => snd p
                                     | Raise _ => st
                                     end) E)). }
  destruct oid; cbn [__init___with] in H; try exact (Hv H); try contradiction.
  destruct (List.length b =? 12)%nat; [| exact (Hv H)].
  exact (eq_sym (f_equal (fun r => match r with
                                   | Ok p => snd p
                                   | Raise _ => st
                                   end) H)).
Qed.

Lemma init_not_none_state env oid st x st' :
  oid <> PyNone -> __init__ env oid st = Ok (x, st') -> st' = st.
Proof. apply init_with_not_none_state. Qed.

(** X10. Only generation advances the counter: a successful
    [ObjectId(oid)] with [oid] other than [None], and a successful
    [from_datetime], leave the class attributes as they were; and whenever
    [is_valid] returns, for any candidate ([None] included) and whatever
    the hex decoder does, it has left them as they were. *)
Theorem only_generation_changes_class_state (env : environ) (st : ObjectId_cls) :
  (forall oid x st', oid <> PyNone ->
                     __init__ env oid st = Ok (x, st') -> st' = st)
  /\ (forall t x st', from_datetime env t st = Ok (x, st') -> st' = st)
  /\ (forall from_hex oid b st',
         is_valid_with from_hex env oid st = Ok (b, st') -> st' = st)
  /\ (forall oid b st', is_valid env oid st = Ok (b, st') -> st' = st).
Proof.
  assert (Hv : forall from_hex oid b st',
             is_valid_with from_hex env oid st = Ok (b, st') -> st' = st).
  { intros from_hex oid b st'. unfold is_valid_with.
    destruct (truthy oid) as [[|]|e] eqn:Ht; cbn [bind negb];
      [| intros E; injection E as _ <-; reflexivity | discriminate].
    assert (Hne : oid <> PyNone) by (intros ->; discriminate Ht).
    destruct (__init___with from_hex env oid st) as [[x st1]|e] eqn:Hi;
      cbn [is_valid_try].
    - intros E. injection E as _ <-.
      exact (init_with_not_none_state _ _ _ _ _ _ Hne Hi).
    - destruct (is_InvalidId e || is_TypeError e); [| discriminate].
      intros E. injection E as _ <-. reflexivity. }
  split; [intros oid x st'; apply init_not_none_state |].
  split.
  - intros t x st'. unfold from_datetime.
    destruct (match Datetime.utcoffset t with
              | Some off => Datetime.sub t off
              | None => Ok t
              end) as [t'|e]; [| discriminate].
    cbn [bind]. destruct (Struct.pack_be_i _) as [p|e]; [| discriminate].
    cbn [bind]. apply init_not_none_state. discriminate.
  - split; [exact Hv |]. intros oid. apply Hv.
Qed.

Lemma only_generation_changes_class_state_witness :
  PyBytes (binary foo_bar_quux) <> PyNone
  /\ __init__ env0 (PyBytes (binary foo_bar_quux)) cls0 = Ok (foo_bar_quux, cls0)
  /\ cls0 = cls0.
Proof.
  assert (Hne : PyBytes (binary foo_bar_quux) <> PyNone) by discriminate.
  assert (H : __init__ env0 (PyBytes (binary foo_bar_quux)) cls0
              = Ok (foo_bar_quux, cls0)) by reflexivity.
  split; [exact Hne |]. split; [exact H |].
  exact (proj1 (only_generation_changes_class_state env0 cls0) _ _ _ Hne H).
Defined.

(** X11. Round trip through the raw bytes and through the identifier
    itself: for an identifier [x] of 12 bytes, [ObjectId(x.binary)] and
    [ObjectId(x)] both equal [x].  The copy takes the bytes of any
    identifier unchecked, while raw bytes of another length are refused with
    [TypeError]. *)
Theorem init_raw_bytes_and_copy_round_trip (env : environ) (st : ObjectId_cls)
                                           (x : ObjectId) :
  __init__ env (PyObjectId x) st = Ok (x, st)
  /\ (List.length (binary x) = 12%nat ->
      __init__ env (PyBytes (binary x)) st = Ok (x, st)
      /\ __eq__ x (PyObjectId x) = CmpBool true)
  /\ (List.length (binary x) <> 12%nat ->
      __init__ env (PyBytes (binary x)) st = Raise TypeError).
Proof.
  destruct x as [b]. cbn [binary __init__ __init___with __validate __validate_with bind].
  split; [reflexivity |].
  split.
  - intros ->. cbn [Nat.eqb __eq__ binary]. rewrite bytes_eqb_refl.
    split; reflexivity.
  - intros Hb. destruct (Nat.eqb_spec (List.length b) 12); [contradiction | reflexivity].
Qed.

Lemma init_raw_bytes_and_copy_round_trip_witness :
  List.length (binary foo_bar_quux) = 12%nat
  /\ __init__ env0 (PyBytes (binary foo_bar_quux)) cls0 = Ok (foo_bar_quux, cls0)
  /\ __eq__ foo_bar_quux (PyObjectId foo_bar_quux) = CmpBool true.
Proof.
  assert (H : List.length (binary foo_bar_quux) = 12%nat) by reflexivity.
  split; [exact H |].
  exact (proj1 (proj2 (init_raw_bytes_and_copy_round_trip env0 cls0 foo_bar_quux)) H).
Defined.

(** ** Text forms *)

Lemma list_ascii_of_string_app (s t : string) :
  list_ascii_of_string (s ++ t) = list_ascii_of_string s ++ list_ascii_of_string t.
Proof.
  induction s as [|c s IH]; cbn [String.append list_ascii_of_string app].
  - reflexivity.
  - rewrite IH. reflexivity.
Qed.

Lemma string_app_inv_tail (s1 s2 t : string) :
  (s1 ++ t = s2 ++ t)%string -> s1 = s2.
Proof.
  intros H. apply (f_equal list_ascii_of_string) in H.
  rewrite !list_ascii_of_string_app in H. apply app_inv_tail in H.
  rewrite <- (string_of_list_ascii_of_string s1), H.
  apply string_of_list_ascii_of_string.
Qed.

Lemma str_inj (x y : ObjectId) : __str__ x = __str__ y -> x = y.
Proof.
  destruct x as [a], y as [b]. unfold __str__. cbn [binary].
  rewrite !str_hex_rendering. intros H.
  apply (f_equal bytes_from_hex) in H.
  rewrite !bytes_from_hex_rendering in H. injection H as ->. reflexivity.
Qed.

(** X12. The text forms are one-to-one: identifiers with the same
    [str] are equal, and so are identifiers with the same [repr]; [str] has
    two characters per raw byte and [repr] wraps it in [ObjectId('...')]. *)
Theorem str_and_repr_one_to_one (x y : ObjectId) :
  (__str__ x = __str__ y -> x = y)
  /\ (__repr__ x = __repr__ y -> x = y)
  /\ String.length (__str__ x) = (2 * List.length (binary x))%nat
  /\ __repr__ x = String.append "ObjectId('" (String.append (__str__ x) "')").
Proof.
  split; [apply str_inj |].
  split.
  { unfold __repr__. intros H.
    cbn [String.append] in H. injection H as H.
    apply string_app_inv_tail in H. apply str_inj. exact H. }
  split; [| reflexivity].
  unfold __str__. rewrite str_hex_rendering. apply hex_rendering_length.
Qed.

Lemma str_and_repr_one_to_one_witness :
  __str__ foo_bar_quux = __str__ foo_bar_quux /\ foo_bar_quux = foo_bar_quux.
Proof.
  assert (H : __str__ foo_bar_quux = __str__ foo_bar_quux) by reflexivity.
  split; [exact H |].
  exact (proj1 (str_and_repr_one_to_one foo_bar_quux foo_bar_quux) H).
Defined.

(** ** Pickling *)

Lemma dict_get_app_absent (d1 d2 : list (string * state_leaf)) (key : string) :
  (forall v, ~ In (key, v) d1) ->
  dict_get (d1 ++ d2) key = dict_get d2 key.
Proof.
  induction d1 as [|[k v] d1 IH]; intros Habs; cbn [app dict_get].
  - reflexivity.
  - destruct (String.eqb_spec k key) as [->|Hne].
    + exfalso. apply (Habs v). left. reflexivity.
    + apply IH. intros v' Hin. apply (Habs v'). right. exact Hin.
Qed.

Lemma dict_get_absent (d : list (string * state_leaf)) (key : string) :
  (forall v, ~ In (key, v) d) -> dict_get d key = None.
Proof.
  intros Habs. rewrite <- (app_nil_r d). rewrite dict_get_app_absent by exact Habs.
  reflexivity.
Qed.

(** X14. Pickling round trip: [__setstate__] restores an identifier from
    its [__getstate__], from the Python 2 string holding the same bytes,
    and from a dictionary binding ["_ObjectId__id"] to either, whatever
    else the dictionary holds; a dictionary without that key raises
    [KeyError].  No length is checked on the way in. *)
Theorem setstate_restores_getstate (x : ObjectId) :
  __setstate__ (StLeaf (StBytes (__getstate__ x))) = Restored x
  /\ __setstate__ (StLeaf (StStr (string_of_list_byte (__getstate__ x)))) = Restored x
  /\ (forall d1 d2 v,
         (forall v', ~ In ("_ObjectId__id"%string, v') d1) ->
         v = StBytes (__getstate__ x)
         \/ v = StStr (string_of_list_byte (__getstate__ x)) ->
         __setstate__ (StDict (d1 ++ ("_ObjectId__id"%string, v) :: d2)) = Restored x)
  /\ (forall d, (forall v', ~ In ("_ObjectId__id"%string, v') d) ->
                __setstate__ (StDict d) = KeyError "_ObjectId__id")
  /\ (forall s, exists y,
         __setstate__ (StLeaf (StStr s)) = Restored y
         /\ List.length (binary y) = String.length s).
Proof.
  destruct x as [b]. unfold __getstate__. cbn [binary].
  assert (E : encode_latin_1 (string_of_list_byte b) = b)
    by apply list_byte_of_string_of_list_byte.
  split; [reflexivity |].
  split; [unfold __setstate__; rewrite E; reflexivity |].
  split.
  { intros d1 d2 v Habs Hv. unfold __setstate__.
    rewrite (dict_get_app_absent _ _ _ Habs). cbn [dict_get].
    rewrite String.eqb_refl.
    destruct Hv as [-> | ->]; [reflexivity | rewrite E; reflexivity]. }
  split.
  { intros d Habs. unfold __setstate__. rewrite (dict_get_absent _ _ Habs).
    reflexivity. }
  intros s. eexists. split; [reflexivity |]. cbn [binary].
  unfold encode_latin_1, list_byte_of_string.
  rewrite length_map. clear. induction s as [|c s IH]; cbn; congruence.
Qed.

Lemma setstate_restores_getstate_witness :
  (forall v', ~ In ("_ObjectId__id"%string, v') [("x"%string, StBytes [])])
  /\ __setstate__ (StDict ([("x"%string, StBytes [])]
                           ++ ("_ObjectId__id"%string,
                               StBytes (__getstate__ foo_bar_quux)) :: []))
     = Restored foo_bar_quux.
Proof.
  assert (H : forall v', ~ In ("_ObjectId__id"%string, v') [("x"%string, StBytes [])]).
  { intros v' [E | []]. discriminate E. }
  split; [exact H |].
  exact (proj1 (proj2 (proj2 (setstate_restores_getstate foo_bar_quux)))
               _ [] _ H (or_introl eq_refl)).
Defined.

(** ** The pydantic validator *)

(** X15. [validate] accepts exactly the instances of [ObjectId], returns
    the value itself and parses nothing: the hex string and the raw bytes of
    a 12-byte identifier, which [is_valid] accepts, are refused with a plain
    [ValueError] (not [InvalidId]); whatever [validate] accepts, [is_valid]
    accepts; and [__get_validators__] yields [validate] alone. *)
Theorem validate_accepts_instances_only (env : environ) (st : ObjectId_cls) :
  (forall oid, validate oid
               = if isinstance_ObjectId oid then Ok oid else Raise ValueError)
  /\ (forall oid v, validate oid = Ok v ->
                    v = oid /\ is_valid env oid st = Ok (true, st))
  /\ (forall x, List.length (binary x) = 12%nat ->
                validate (PyStr (__str__ x)) = Raise ValueError
                /\ validate (PyBytes (binary x)) = Raise ValueError
                /\ is_valid env (PyStr (__str__ x)) st = Ok (true, st)
                /\ is_valid env (PyBytes (binary x)) st = Ok (true, st))
  /\ is_InvalidId ValueError = false
  /\ __get_validators__ = [validate].
Proof.
  split.
  { intros oid. unfold validate. destruct (isinstance_ObjectId oid); reflexivity. }
  split.
  { intros oid v. unfold validate.
    destruct oid; cbn [isinstance_ObjectId negb]; try discriminate.
    intros H. injection H as <-. split; reflexivity. }
  split; [| split; reflexivity].
  intros x Hlen. split; [reflexivity |]. split; [reflexivity |].
  split.
  - rewrite is_valid_truthy.
    + unfold __str__. rewrite (init_hex_rendering env st _ Hlen). reflexivity.
    + unfold __str__. cbn [truthy].
      rewrite str_hex_rendering, hex_rendering_length, Hlen. reflexivity.
  - unfold is_valid, is_valid_with. cbn [truthy __init__ __init___with]. rewrite Hlen. reflexivity.
Qed.

Lemma validate_accepts_instances_only_witness :
  validate (PyObjectId foo_bar_quux) = Ok (PyObjectId foo_bar_quux)
  /\ is_valid env0 (PyObjectId foo_bar_quux) cls0 = Ok (true, cls0).
Proof.
  assert (H : validate (PyObjectId foo_bar_quux) = Ok (PyObjectId foo_bar_quux))
    by reflexivity.
  split; [exact H |].
  exact (proj2 (proj1 (proj2 (validate_accepts_instances_only env0 cls0)) _ _ H)).
Defined.

(** ** Reading the time back *)

Lemma unpack_be_i_4 (b : bytes) :
  List.length b = 4%nat ->
  exists ts,
    Struct.unpack_be_i b = Ok ts
    /\ -2147483648 <= ts <= 2147483647
    /\ Struct.int_to_be 4 ts = b.
Proof.
  intros Hlen. unfold Struct.unpack_be_i. rewrite Hlen. cbn [Nat.eqb]. cbv zeta.
  rewrite be_to_uint_val.
  pose proof (be_val_range b) as Hr. rewrite Hlen in Hr.
  change (256 ^ Z.of_nat 4) with 4294967296 in Hr.
  eexists. split; [reflexivity |].
  destruct (Z.leb_spec 2147483648 (be_val b)) as [Hc|Hc].
  - split; [lia |]. apply be_val_inj; [rewrite int_to_be_length, Hlen; reflexivity |].
    rewrite be_val_int_to_be. change (256 ^ Z.of_nat 4) with 4294967296.
    symmetry. apply (Z.mod_unique _ _ (-1)); lia.
  - split; [lia |]. apply be_val_inj; [rewrite int_to_be_length, Hlen; reflexivity |].
    rewrite be_val_int_to_be. change (256 ^ Z.of_nat 4) with 4294967296.
    apply Z.mod_small. lia.
Qed.

Lemma generation_time_4_bytes (x : ObjectId) :
  (4 <= List.length (binary x))%nat ->
  exists ts,
    generation_time x = Ok (Datetime.mkDatetime (ts * 1000000) (Some 0))
    /\ -2147483648 <= ts <= 2147483647
    /\ be_i32_spec ts = firstn 4 (binary x).
Proof.
  destruct x as [b]. cbn [binary]. unfold generation_time. cbn [binary].
  change (slice 0 4 b) with (firstn 4 b).
  intros Hlen.
  assert (H4 : List.length (firstn 4 b) = 4%nat) by (rewrite length_firstn; lia).
  destruct (unpack_be_i_4 _ H4) as (ts & -> & Hr & Hb).
  exists ts. cbn [bind]. unfold Datetime.fromtimestamp, Datetime.utc.
  rewrite Z.add_0_r. split; [reflexivity |]. split; [exact Hr |].
  rewrite <- int_to_be_4. exact Hb.
Qed.

(** X16. [generation_time] succeeds on every identifier of at least 4
    bytes, giving a UTC-aware timestamp on a whole second between -2^31 and
    2^31 - 1 whose big-endian two's-complement bytes are the first 4 bytes;
    on an identifier of fewer than 4 bytes it raises [struct.error]. *)
Theorem generation_time_total_on_4_bytes (x : ObjectId) :
  ((4 <= List.length (binary x))%nat ->
   exists ts,
     generation_time x = Ok (Datetime.mkDatetime (ts * 1000000) (Some 0))
     /\ -2147483648 <= ts <= 2147483647
     /\ be_i32_spec ts = firstn 4 (binary x))
  /\ ((List.length (binary x) < 4)%nat ->
      generation_time x = Raise StructError).
Proof.
  split; [apply generation_time_4_bytes |].
  destruct x as [b]. cbn [binary]. unfold generation_time. cbn [binary].
  change (slice 0 4 b) with (firstn 4 b).
  intros Hlen. unfold Struct.unpack_be_i.
  rewrite length_firstn.
  destruct (Nat.eqb_spec (Nat.min 4 (List.length b)) 4); [lia | reflexivity].
Qed.

Lemma generation_time_total_on_4_bytes_witness :
  (4 <= List.length (binary foo_bar_quux))%nat
  /\ exists ts,
      generation_time foo_bar_quux
      = Ok (Datetime.mkDatetime (ts * 1000000) (Some 0))
      /\ -2147483648 <= ts <= 2147483647
      /\ be_i32_spec ts = firstn 4 (binary foo_bar_quux).
Proof.
  assert (H : (4 <= List.length (binary foo_bar_quux))%nat)
    by (apply Nat.leb_le; reflexivity).
  split; [exact H |].
  exact (proj1 (generation_time_total_on_4_bytes foo_bar_quux) H).
Defined.

(** X17. [from_datetime] undoes [generation_time]: for an identifier [x]
    of at least 4 bytes, [from_datetime(x.generation_time)] succeeds and is
    the first 4 bytes of [x] followed by 8 zero bytes; so an identifier that
    [from_datetime] built is rebuilt from its own generation time. *)
Theorem from_datetime_of_generation_time (env : environ) (st : ObjectId_cls)
                                         (x : ObjectId) :
  (4 <= List.length (binary x))%nat ->
  exists d,
    generation_time x = Ok d
    /\ from_datetime env d st
       = Ok (mkObjectId (firstn 4 (binary x) ++ repeat x00 8), st)
    /\ (forall t st0 st1, from_datetime env t st0 = Ok (x, st1) ->
                          from_datetime env d st = Ok (x, st)).
Proof.
  intros Hlen.
  destruct (generation_time_4_bytes x Hlen) as (ts & Hg & Hr & Hb).
  exists (Datetime.mkDatetime (ts * 1000000) (Some 0)).
  assert (Hs : Datetime.unix_seconds (Datetime.mkDatetime (ts * 1000000) (Some 0)) = ts).
  { unfold Datetime.unix_seconds, Datetime.utc_instant. cbn [Datetime.tzinfo Datetime.wall].
    rewrite Z.sub_0_r. apply Z.div_mul. lia. }
  assert (Hf : from_datetime env (Datetime.mkDatetime (ts * 1000000) (Some 0)) st
               = Ok (mkObjectId (firstn 4 (binary x) ++ repeat x00 8), st)).
  { rewrite from_datetime_ok by (rewrite Hs; exact Hr). rewrite Hs, Hb. reflexivity. }
  split; [exact Hg |]. split; [exact Hf |].
  intros t st0 st1 Ht. rewrite Hf. do 2 f_equal.
  destruct (Z_le_dec (-2147483648) (Datetime.unix_seconds t)) as [H1|H1];
    [destruct (Z_le_dec (Datetime.unix_seconds t) 2147483647) as [H2|H2] |].
  - rewrite from_datetime_ok in Ht by lia. injection Ht as <- _. reflexivity.
  - destruct (from_datetime_raise env st0 t ltac:(lia)) as [E|E];
      rewrite E in Ht; discriminate.
  - destruct (from_datetime_raise env st0 t ltac:(lia)) as [E|E];
      rewrite E in Ht; discriminate.
Qed.

Lemma from_datetime_of_generation_time_witness :
  (4 <= List.length (binary foo_bar_quux))%nat
  /\ exists d,
      generation_time foo_bar_quux = Ok d
      /\ from_datetime env0 d cls0
         = Ok (mkObjectId (firstn 4 (binary foo_bar_quux) ++ repeat x00 8), cls0).
Proof.
  assert (H : (4 <= List.length (binary foo_bar_quux))%nat)
    by (apply Nat.leb_le; reflexivity).
  split; [exact H |].
  destruct (from_datetime_of_generation_time env0 cls0 foo_bar_quux H)
    as (d & Hg & Hf & _).
  exists d. split; [exact Hg | exact Hf].
Defined.

Lemma be_i32_spec_inj (s1 s2 : Z) :
  -2147483648 <= s1 <= 2147483647 -> -2147483648 <= s2 <= 2147483647 ->
  be_i32_spec s1 = be_i32_spec s2 -> s1 = s2.
Proof.
  intros H1 H2 E. apply (f_equal Struct.unpack_be_i) in E.
  rewrite <- !int_to_be_4, !unpack_pack_be_i in E by assumption.
  injection E as E. exact E.
Qed.

(** X18. [from_datetime] depends on the Unix second alone: two timestamps
    in the signed 32-bit range give the same identifier exactly when they
    fall in the same second of the same instant, whatever their offsets and
    sub-second parts. *)
Theorem from_datetime_same_second_same_id (env : environ) (st : ObjectId_cls)
                                          (t1 t2 : Datetime.datetime) :
  -2147483648 <= Datetime.unix_seconds t1 <= 2147483647 ->
  -2147483648 <= Datetime.unix_seconds t2 <= 2147483647 ->
  (from_datetime env t1 st = from_datetime env t2 st
   <-> Datetime.unix_seconds t1 = Datetime.unix_seconds t2).
Proof.
  intros H1 H2. rewrite !from_datetime_ok by assumption. split.
  - intros E.
    assert (E' : be_i32_spec (Datetime.unix_seconds t1) ++ repeat x00 8
                 = be_i32_spec (Datetime.unix_seconds t2) ++ repeat x00 8)
      by congruence.
    apply app_inv_tail in E'. apply be_i32_spec_inj; assumption.
  - intros ->. reflexivity.
Qed.

Lemma from_datetime_same_second_same_id_witness :
  -2147483648 <= Datetime.unix_seconds t_2001 <= 2147483647
  /\ -2147483648 <= Datetime.unix_seconds t_2001_cest <= 2147483647
  /\ from_datetime env0 t_2001 cls0 = from_datetime env0 t_2001_cest cls0.
Proof.
  assert (H1 : -2147483648 <= Datetime.unix_seconds t_2001 <= 2147483647)
    by (vm_compute; split; discriminate).
  assert (H2 : -2147483648 <= Datetime.unix_seconds t_2001_cest <= 2147483647)
    by (vm_compute; split; discriminate).
  split; [exact H1 |]. split; [exact H2 |].
  apply (proj2 (from_datetime_same_second_same_id env0 cls0 t_2001 t_2001_cest H1 H2)).
  reflexivity.
Defined.
